(** * vcenter_lifecycle: download-settings reconciliation

    A shallow embedding of [vcenter_lifecycle/client.py] and
    [vcenter_lifecycle/downloads.py].

    - Python values that travel over the wire (dicts, lists, strings, ints,
      booleans, [None]) are the inductive type [json]; a [dict] is a
      [gmap string json], so two dicts are equal exactly when they have the
      same keys with the same values, as with Python's [==]. Numbers are
      integers: the code never computes with a float.
    - Python exceptions are the type [exn]; a call that may raise returns a
      [result].
    - The appliance is an arbitrary transition function [serve]; the client
      object, the appliance state and the list of requests sent so far form
      the [state] threaded through the monad [M]. *)

From stdpp Require Import gmap strings list fin_maps pretty.
From Stdlib Require Import ZArith.

Local Set Warnings "-register-all,-clear-no-such-hyp".
Local Open Scope Z_scope.
Local Open Scope string_scope.
Local Open Scope list_scope.

(** ** Values and exceptions *)

Inductive json : Type :=
  | JNull
  | JBool (b : bool)
  | JInt (z : Z)
  | JStr (s : string)
  | JList (l : list json)
  | JObj (m : gmap string json).

(** Python truthiness, as used by [if self._session_id:] and
    [if self.username:]. *)
Definition str_truthy (s : string) : bool :=
  match s with EmptyString => false | String _ _ => true end.

Definition truthy (v : json) : bool :=
  match v with
  | JNull => false
  | JBool b => b
  | JInt z => negb (z =? 0)%Z
  | JStr s => str_truthy s
  | JList l => match l with [] => false | _ :: _ => true end
  | JObj m => negb (Nat.eqb (size m) 0)
  end.

(** [d[k]] on a JSON value, [None] when [d] is no dict or has no such key
    (only used to read nested documents in statements). *)
Definition json_get (k : string) (v : json) : option json :=
  match v with JObj m => m !! k | _ => None end.

(** The subclasses of [Exception] that the modelled code can meet. *)
Inductive exn : Type :=
  | ValueError (msg : string)
  | AttributeError (msg : string)
  | HTTPError (status : Z)
  | JSONDecodeError
  | RequestException (msg : string).

Inductive result (A : Type) : Type :=
  | Ok (a : A)
  | Raise (e : exn).
Arguments Ok {A} a.
Arguments Raise {A} e.

Definition is_ok {A} (r : result A) : bool :=
  match r with Ok _ => true | Raise _ => false end.

Definition result_bind {A B} (r : result A) (k : A -> result B) : result B :=
  match r with Ok a => k a | Raise e => Raise e end.

(** ** The settings data model ([downloads.py]) *)

Module ProxySettings.
Record t : Type := mk {
  enabled : bool;
  server : string;
  port : Z;
  username : string;
  password : string
}.

(** [ProxySettings()] *)
Definition default : t := mk false "" 80 "" "".

Definition to_dict (self : t) : gmap string json :=
  let result : gmap string json := {[ "enabled" := JBool (enabled self) ]} in
  if enabled self then
    let result := <[ "server" := JStr (server self) ]> result in
    let result := <[ "port" := JInt (port self) ]> result in
    if str_truthy (username self) then
      let result := <[ "username" := JStr (username self) ]> result in
      <[ "password" := JStr (password self) ]> result
    else result
  else result.
End ProxySettings.

Module DownloadSchedule.
Record t : Type := mk {
  enabled : bool;
  day : string;
  hour : Z;
  minute : Z
}.

Definition _VALID_DAYS : gset string :=
  {[ "EVERYDAY"; "MONDAY"; "TUESDAY"; "WEDNESDAY";
     "THURSDAY"; "FRIDAY"; "SATURDAY"; "SUNDAY" ]}.

(** [str(_VALID_DAYS)]: CPython prints a set of strings in an order that
    changes from one process to the next; the elements are listed here in
    the order of the source. *)
Definition repr_VALID_DAYS : string :=
  "{'EVERYDAY', 'MONDAY', 'TUESDAY', 'WEDNESDAY', 'THURSDAY', 'FRIDAY', 'SATURDAY', 'SUNDAY'}".

Definition __post_init__ (self : t) : result unit :=
  if negb (bool_decide (day self ∈ _VALID_DAYS)) then
    Raise (ValueError ("Invalid day '" +:+ day self +:+ "'. Must be one of "
                       +:+ repr_VALID_DAYS))
  else if negb ((0 <=? hour self)%Z && (hour self <=? 23)%Z) then
    Raise (ValueError ("hour must be 0-23, got " +:+ pretty (hour self)))
  else if negb ((0 <=? minute self)%Z && (minute self <=? 59)%Z) then
    Raise (ValueError ("minute must be 0-59, got " +:+ pretty (minute self)))
  else Ok tt.

(** The generated [__init__]: store the fields, then run [__post_init__]. *)
Definition __init__ (enabled : bool) (day : string) (hour minute : Z)
  : result t :=
  let self := mk enabled day hour minute in
  result_bind (__post_init__ self) (fun _ => Ok self).

Definition to_dict (self : t) : gmap string json :=
  {[ "enabled" := JBool (enabled self);
     "day" := JStr (day self);
     "hour" := JInt (hour self);
     "minute" := JInt (minute self) ]}.
End DownloadSchedule.

Module DownloadSource.
Record t : Type := mk {
  source_type : string;
  umds_url : string
}.

Definition __post_init__ (self : t) : result unit :=
  if negb (bool_decide (source_type self ∈ ["INTERNET"; "UMDS"])) then
    Raise (ValueError ("source_type must be 'INTERNET' or 'UMDS', got '"
                       +:+ source_type self +:+ "'"))
  else Ok tt.

Definition __init__ (source_type umds_url : string) : result t :=
  let self := mk source_type umds_url in
  result_bind (__post_init__ self) (fun _ => Ok self).
End DownloadSource.

Module DownloadSettings.
(** [auto_download_enabled] is annotated [bool] in the source, but the
    convenience operations store there whatever the appliance sent under
    ["auto_stage"], and the value is written back as it is: the field holds
    a [json] value. *)
Record t : Type := mk {
  auto_check_enabled : bool;
  auto_download_enabled : json;
  schedule : DownloadSchedule.t;
  source : DownloadSource.t;
  proxy : ProxySettings.t
}.

(** The generated [__init__]; [None] for an argument left out, which is
    then produced by the field's [default_factory]. *)
Definition __init__ (auto_check_enabled : bool) (auto_download_enabled : json)
    (schedule : option DownloadSchedule.t)
    (source : option DownloadSource.t)
    (proxy : option ProxySettings.t) : result t :=
  result_bind
    (match schedule with
     | Some x => Ok x
     | None => DownloadSchedule.__init__ true "EVERYDAY" 2 0
     end) (fun schedule =>
  result_bind
    (match source with
     | Some x => Ok x
     | None => DownloadSource.__init__ "INTERNET" ""
     end) (fun source =>
  let proxy := match proxy with
               | Some x => x
               | None => ProxySettings.default
               end in
  Ok (mk auto_check_enabled auto_download_enabled schedule source proxy))).
End DownloadSettings.

(** [current.get(key, default)]: only a dict has the method. *)
Definition py_get (current : json) (key : string) (dflt : json) : result json :=
  match current with
  | JObj m => Ok (default dflt (m !! key))
  | _ => Raise (AttributeError "object has no attribute 'get'")
  end.

(** ** HTTP as seen by the client *)

Inductive http_method : Type := GET | PUT | POST | DELETE | PATCH.

(** What [requests.Session.request] sends: the verb, the URL, the headers the
    code attached to the session, the [auth=] pair and the [json=] body. *)
Record request : Type := {
  method : http_method;
  url : string;
  headers : gmap string json;
  auth : option (string * string);
  req_json : option json
}.

(** [content] is the decoded body, [None] when it is no JSON document. *)
Record response : Type := {
  status_code : Z;
  content : option json
}.

(** The attributes of a [VCenterClient]; [session_headers] are the headers
    added to [self.session] by the code. *)
Record VCenterClient : Type := {
  base_url : string;
  username : string;
  password : string;
  verify_ssl : bool;
  session_headers : gmap string json;
  _session_id : json
}.

Definition VCenterClient__init__ (host username password : string)
    (verify_ssl : bool) : VCenterClient :=
  {| base_url := "https://" +:+ host;
     username := username;
     password := password;
     verify_ssl := verify_ssl;
     session_headers := ∅;
     _session_id := JNull |}.

(** --- vSphere REST API paths --- *)
Definition _UPDATE_POLICY_PATH : string := "/api/appliance/update/policy".
Definition _DEPOT_ONLINE_PATH : string := "/api/vcenter/lcm/discovery/product-catalog".
Definition _DEPOT_CONTENT_PATH : string := "/api/content/subscribed-library".

(** The client object, the appliance behind it, and every request sent so
    far, oldest first. *)
Record state (remote : Type) : Type := {
  client : VCenterClient;
  appliance : remote;
  sent : list request
}.
Arguments client {remote} s.
Arguments appliance {remote} s.
Arguments sent {remote} s.
Arguments Build_state {remote} client appliance sent.

Declare Scope py_scope.
Delimit Scope py_scope with py.

Section Operations.

Context {remote : Type}.

(** The appliance: from its state and a request, its next state and either a
    response or the exception [requests] raises for a failed exchange. *)
Variable serve : remote -> request -> remote * result response.

Definition M (A : Type) : Type := state remote -> result A * state remote.

Definition ret {A} (a : A) : M A := fun s => (Ok a, s).

Definition raise {A} (e : exn) : M A := fun s => (Raise e, s).

Definition bind {A B} (m : M A) (k : A -> M B) : M B :=
  fun s => match m s with
           | (Ok a, s') => k a s'
           | (Raise e, s') => (Raise e, s')
           end.

Definition lift {A} (r : result A) : M A := fun s => (r, s).

(** [try: body except Exception: handler] *)
Definition try_except {A} (body : M A) (handler : exn -> M A) : M A :=
  fun s => match body s with
           | (Ok a, s') => (Ok a, s')
           | (Raise e, s') => handler e s'
           end.

Notation "x <- m ;; k" := (bind m (fun x => k))
  (at level 100, m at next level, right associativity) : py_scope.
Notation "m ;;; k" := (bind m (fun _ => k))
  (at level 100, right associativity) : py_scope.
Local Open Scope py_scope.

Definition get_self : M VCenterClient := fun s => (Ok (client s), s).

Definition set_self (c : VCenterClient) : M unit :=
  fun s => (Ok tt, Build_state c (appliance s) (sent s)).

(** [self.session.request(...)]: the request is recorded, the appliance
    moves on, and the answer (or the exception) comes back. *)
Definition session_request (r : request) : M response :=
  fun s => let (a', out) := serve (appliance s) r in
           (out, Build_state (client s) a' (sent s ++ [r])).

Definition session_send (m : http_method) (url : string)
    (auth : option (string * string)) (body : option json) : M response :=
  self <- get_self ;;
  session_request {| method := m; url := url;
                     headers := session_headers self;
                     auth := auth; req_json := body |}.

(** [resp.raise_for_status()]: raises for a 4xx or 5xx status. *)
Definition raise_for_status (resp : response) : M unit :=
  if ((400 <=? status_code resp)%Z && (status_code resp <? 600)%Z)%bool
  then raise (HTTPError (status_code resp))
  else ret tt.

(** [resp.json()] *)
Definition response_json (resp : response) : M json :=
  match content resp with
  | Some v => ret v
  | None => raise JSONDecodeError
  end.

(** *** [client.py] *)

Definition login : M unit :=
  self <- get_self ;;
  let url := base_url self +:+ "/api/session" in
  resp <- session_send POST url (Some (username self, password self)) None ;;
  raise_for_status resp ;;;
  sid <- response_json resp ;;
  self <- get_self ;;
  set_self {| base_url := base_url self; username := username self;
              password := password self; verify_ssl := verify_ssl self;
              session_headers := session_headers self;
              _session_id := sid |} ;;;
  self <- get_self ;;
  set_self {| base_url := base_url self; username := username self;
              password := password self; verify_ssl := verify_ssl self;
              session_headers :=
                <[ "vmware-api-session-id" := _session_id self ]>
                  (session_headers self);
              _session_id := _session_id self |}.

Definition logout : M unit :=
  self <- get_self ;;
  if truthy (_session_id self) then
    let url := base_url self +:+ "/api/session" in
    session_send DELETE url None None ;;;
    self <- get_self ;;
    set_self {| base_url := base_url self; username := username self;
                password := password self; verify_ssl := verify_ssl self;
                session_headers := session_headers self;
                _session_id := JNull |}
  else ret tt.

Definition get (path : string) : M response :=
  self <- get_self ;;
  resp <- session_send GET (base_url self +:+ path) None None ;;
  raise_for_status resp ;;;
  ret resp.

Definition put (path : string) (json_body : option json) : M response :=
  self <- get_self ;;
  resp <- session_send PUT (base_url self +:+ path) None json_body ;;
  raise_for_status resp ;;;
  ret resp.

Definition patch (path : string) (json_body : option json) : M response :=
  self <- get_self ;;
  resp <- session_send PATCH (base_url self +:+ path) None json_body ;;
  raise_for_status resp ;;;
  ret resp.

(** *** [downloads.py] *)

Definition get_download_settings : M json :=
  resp <- get _UPDATE_POLICY_PATH ;;
  response_json resp.

(** The [spec] dict built by [_register_umds_depot]. *)
Definition depot_spec (depot_url : string) : gmap string json :=
  {[ "create_spec" := JObj
      {[ "name" := JStr "UMDS Patch Depot";
         "description" := JStr "Local UMDS depot for Lifecycle Manager patches";
         "type" := JStr "SUBSCRIBED";
         "subscription_info" := JObj
           {[ "subscription_url" := JStr depot_url;
              "authentication_method" := JStr "NONE";
              "automatic_sync_enabled" := JBool true;
              "on_demand" := JBool false ]};
         "storage_backings" := JList [] ]} ]}.

Definition _register_umds_depot (depot_url : string) : M unit :=
  let spec := depot_spec depot_url in
  try_except
    (self <- get_self ;;
     resp <- session_send POST (base_url self +:+ _DEPOT_CONTENT_PATH)
               None (Some (JObj spec)) ;;
     raise_for_status resp)
    (fun _ => ret tt).

(** The [policy] dict of [configure_download_settings] at the time it is
    passed to [client.put]. *)
Definition policy_document (settings : DownloadSettings.t) : gmap string json :=
  let policy : gmap string json :=
    {[ "custom_URL" := JStr "";
       "auto_stage" := DownloadSettings.auto_download_enabled settings;
       "check_schedule" :=
         JList [JObj (DownloadSchedule.to_dict (DownloadSettings.schedule settings))];
       "username" := JStr "";
       "password" := JStr "" ]} in
  if ProxySettings.enabled (DownloadSettings.proxy settings) then
    <[ "proxy" := JObj (ProxySettings.to_dict (DownloadSettings.proxy settings)) ]> policy
  else policy.

Definition configure_download_settings (settings : DownloadSettings.t) : M json :=
  let policy := policy_document settings in
  put _UPDATE_POLICY_PATH (Some (JObj policy)) ;;;
  (if (String.eqb (DownloadSource.source_type (DownloadSettings.source settings)) "UMDS"
       && str_truthy (DownloadSource.umds_url (DownloadSettings.source settings)))%bool
   then _register_umds_depot (DownloadSource.umds_url (DownloadSettings.source settings))
   else ret tt) ;;;
  get_download_settings.

Definition enable_auto_download : M json :=
  settings <- lift (DownloadSettings.__init__ true (JBool true) None None None) ;;
  configure_download_settings settings.

Definition disable_auto_download : M json :=
  schedule <- lift (DownloadSchedule.__init__ false "EVERYDAY" 2 0) ;;
  settings <- lift (DownloadSettings.__init__ false (JBool false)
                      (Some schedule) None None) ;;
  configure_download_settings settings.

Definition set_download_schedule (day : string) (hour minute : Z) : M json :=
  current <- get_download_settings ;;
  auto_stage <- lift (py_get current "auto_stage" (JBool true)) ;;
  schedule <- lift (DownloadSchedule.__init__ true day hour minute) ;;
  settings <- lift (DownloadSettings.__init__ true auto_stage
                      (Some schedule) None None) ;;
  configure_download_settings settings.

Definition set_proxy (server : string) (port : Z) (username password : string)
    : M json :=
  current <- get_download_settings ;;
  auto_stage <- lift (py_get current "auto_stage" (JBool true)) ;;
  let proxy := ProxySettings.mk true server port username password in
  settings <- lift (DownloadSettings.__init__ true auto_stage
                      None None (Some proxy)) ;;
  configure_download_settings settings.

Definition clear_proxy : M json :=
  current <- get_download_settings ;;
  auto_stage <- lift (py_get current "auto_stage" (JBool true)) ;;
  let proxy := ProxySettings.mk false "" 80 "" "" in
  settings <- lift (DownloadSettings.__init__ true auto_stage
                      None None (Some proxy)) ;;
  configure_download_settings settings.

Definition set_download_source (source_type umds_url : string) : M json :=
  current <- get_download_settings ;;
  auto_stage <- lift (py_get current "auto_stage" (JBool true)) ;;
  source <- lift (DownloadSource.__init__ source_type umds_url) ;;
  settings <- lift (DownloadSettings.__init__ true auto_stage
                      None (Some source) None) ;;
  configure_download_settings settings.

(** *** The context manager of [client.py] *)

Definition __enter__ : M unit := login.

(** [__exit__] logs out and returns the constant [False]: an exception of
    the block is never suppressed. *)
Definition __exit__ : M unit := logout.

(** [with client: body]: [__enter__] first; if it raises, neither the block
    nor [__exit__] runs. Otherwise [__exit__] runs whether the block returned
    or raised; an exception raised by [__exit__] itself replaces the outcome
    of the block. *)
Definition with_client {A} (body : M A) : M A :=
  fun s =>
    match __enter__ s with
    | (Raise e, s1) => (Raise e, s1)
    | (Ok _, s1) =>
        match body s1 with
        | (Ok a, s2) =>
            match __exit__ s2 with
            | (Ok _, s3) => (Ok a, s3)
            | (Raise e', s3) => (Raise e', s3)
            end
        | (Raise e, s2) =>
            match __exit__ s2 with
            | (Ok _, s3) => (Raise e, s3)
            | (Raise e', s3) => (Raise e', s3)
            end
        end
    end.

End Operations.

(** ** Requests named in the statements *)

Definition policy_get_request (c : VCenterClient) : request :=
  {| method := GET; url := base_url c +:+ _UPDATE_POLICY_PATH;
     headers := session_headers c; auth := None; req_json := None |}.

Definition policy_put_request (c : VCenterClient) (policy : gmap string json)
    : request :=
  {| method := PUT; url := base_url c +:+ _UPDATE_POLICY_PATH;
     headers := session_headers c; auth := None;
     req_json := Some (JObj policy) |}.

Definition depot_post_request (c : VCenterClient) (depot_url : string)
    : request :=
  {| method := POST; url := base_url c +:+ _DEPOT_CONTENT_PATH;
     headers := session_headers c; auth := None;
     req_json := Some (JObj (depot_spec depot_url)) |}.

Definition session_delete_request (c : VCenterClient) : request :=
  {| method := DELETE; url := base_url c +:+ "/api/session";
     headers := session_headers c; auth := None; req_json := None |}.

Definition is_method (m : http_method) (r : request) : bool :=
  match m, method r with
  | GET, GET | PUT, PUT | POST, POST | DELETE, DELETE | PATCH, PATCH => true
  | _, _ => false
  end.

(** The requests of verb [m] among [l], in order. *)
Definition requests_of (m : http_method) (l : list request) : list request :=
  List.filter (is_method m) l.

(** The state after request [r] has been sent from [s] and the appliance
    has moved to [a']. *)
Definition exchanged {remote} (s : state remote) (r : request) (a' : remote)
    : state remote :=
  Build_state (client s) a' (sent s ++ [r]).

(** [raise_for_status] raises for this response. *)
Definition error_status (resp : response) : bool :=
  ((400 <=? status_code resp)%Z && (status_code resp <? 600)%Z)%bool.

(** The requests sent while going from [s] to [s']. *)
Definition issued {remote} (s s' : state remote) : list request :=
  drop (length (sent s)) (sent s').

(** The test of [configure_download_settings] that guards the registration. *)
Definition wants_depot (settings : DownloadSettings.t) : bool :=
  (String.eqb (DownloadSource.source_type (DownloadSettings.source settings)) "UMDS"
   && str_truthy (DownloadSource.umds_url (DownloadSettings.source settings)))%bool.

(** ** A laboratory appliance

    It keeps one policy document: a GET returns it, a PUT replaces it by the
    body sent, a session is created for any credentials and deleted on
    request, and every depot registration is refused with 409 Conflict. *)
Definition lab_serve (policy : json) (r : request) : json * result response :=
  match method r with
  | GET => (policy, Ok {| status_code := 200; content := Some policy |})
  | PUT =>
      match req_json r with
      | Some doc => (doc, Ok {| status_code := 200; content := Some doc |})
      | None => (policy, Ok {| status_code := 400; content := None |})
      end
  | POST =>
      match auth r with
      | Some _ =>
          (policy, Ok {| status_code := 201; content := Some (JStr "token") |})
      | None => (policy, Ok {| status_code := 409; content := None |})
      end
  | DELETE => (policy, Ok {| status_code := 204; content := None |})
  | PATCH => (policy, Ok {| status_code := 405; content := None |})
  end.

Definition lab_client : VCenterClient :=
  VCenterClient__init__ "vc.lab" "admin" "secret" false.

Definition lab_state (policy : json) : state json :=
  Build_state lab_client policy [].

(** A policy as left by [set-schedule --day MONDAY --hour 3 --minute 30]. *)
Definition monday_dict : gmap string json :=
  {[ "auto_stage" := JBool false;
     "check_schedule" := JList [JObj
       {[ "enabled" := JBool true; "day" := JStr "MONDAY";
          "hour" := JInt 3; "minute" := JInt 30 ]}] ]}.

Definition monday_policy : json := JObj monday_dict.

(** The laboratory state once [login] has run. *)
Definition lab_session : state json :=
  snd (login lab_serve (lab_state monday_policy)).

Definition umds_settings : DownloadSettings.t :=
  DownloadSettings.mk true (JBool true)
    (DownloadSchedule.mk true "EVERYDAY" 2 0)
    (DownloadSource.mk "UMDS" "https://umds.local/depot")
    (ProxySettings.mk false "" 80 "" "").

(** ** The command line ([cli.py]) *)

(** The parsed arguments: an option left out on the command line is [None]
    unless [build_parser] gives it a default. *)
Module Namespace.
Record t : Type := mk {
  host : option string;
  username : option string;
  password : option string;
  verify_ssl : bool;
  day : string;
  hour : Z;
  minute : Z;
  server : string;
  port : Z;
  proxy_user : option string;
  proxy_password : option string;
  type : string;
  umds_url : option string
}.
End Namespace.

(** [a or b] for an optional string [a]: [None] and [""] are falsy. *)
Definition py_or (a : option string) (b : string) : string :=
  match a with
  | Some x => if str_truthy x then x else b
  | None => b
  end.

(** [os.environ.get(key, "")] *)
Definition environ_get (environ : gmap string string) (key : string) : string :=
  default "" (environ !! key).

Definition credentials_required : string :=
  "Error: vCenter credentials required. Provide --host, --username, "
  +:+ "--password or set VCENTER_HOST, VCENTER_USERNAME, VCENTER_PASSWORD "
  +:+ "environment variables.".

(** [inl msg] is [sys.exit(msg)]. *)
Definition _build_client (args : Namespace.t) (environ : gmap string string)
    : string + VCenterClient :=
  let host := py_or (Namespace.host args) (environ_get environ "VCENTER_HOST") in
  let user := py_or (Namespace.username args)
                (environ_get environ "VCENTER_USERNAME") in
  let password := py_or (Namespace.password args)
                    (environ_get environ "VCENTER_PASSWORD") in
  let verify := Namespace.verify_ssl args in
  if (negb (str_truthy host) || negb (str_truthy user)
      || negb (str_truthy password))%bool
  then inl credentials_required
  else inr (VCenterClient__init__ host user password verify).

(** What a handler writes to standard output: a [print] of a text, or
    [_print_json] of a value. *)
Inductive output : Type :=
  | Print (text : string)
  | PrintJson (data : json).

(** How a handler ends: [sys.exit] with a message, an exception that
    propagates, or a normal return. *)
Inductive ending : Type :=
  | Exited (msg : string)
  | Failed (e : exn)
  | Returned.

Section Commands.

Context {remote : Type}.
Variable serve : remote -> request -> remote * result response.
Variable environ : gmap string string.

(** The shape shared by the handlers that print after the block:
    [with _build_client(args) as client: result = body] and then the prints.
    The client built becomes the client of the state; the result is what
    was printed and how the handler ended. *)
Definition handler (args : Namespace.t) (body : M json)
    (report : json -> list output) (s : state remote)
    : (list output * ending) * state remote :=
  match _build_client args environ with
  | inl msg => (([], Exited msg), s)
  | inr c =>
      match with_client serve body (Build_state c (appliance s) (sent s)) with
      | (Ok result, s') => ((report result, Returned), s')
      | (Raise e, s') => (([], Failed e), s')
      end
  end.

(** [cmd_show] prints inside the block, before [__exit__] runs. *)
Definition cmd_show (args : Namespace.t) (s : state remote)
    : (list output * ending) * state remote :=
  match _build_client args environ with
  | inl msg => (([], Exited msg), s)
  | inr c =>
      match __enter__ serve (Build_state c (appliance s) (sent s)) with
      | (Raise e, s1) => (([], Failed e), s1)
      | (Ok _, s1) =>
          match get_download_settings serve s1 with
          | (Ok result, s2) =>
              match __exit__ serve s2 with
              | (Ok _, s3) => (([PrintJson result], Returned), s3)
              | (Raise e', s3) => (([PrintJson result], Failed e'), s3)
              end
          | (Raise e, s2) =>
              match __exit__ serve s2 with
              | (Ok _, s3) => (([], Failed e), s3)
              | (Raise e', s3) => (([], Failed e'), s3)
              end
          end
      end
  end.

Definition cmd_enable_auto (args : Namespace.t) :=
  handler args (enable_auto_download serve)
    (fun result => [Print "Automatic downloads enabled."; PrintJson result]).

Definition cmd_disable_auto (args : Namespace.t) :=
  handler args (disable_auto_download serve)
    (fun result => [Print "Automatic downloads disabled."; PrintJson result]).

Definition cmd_set_schedule (args : Namespace.t) :=
  handler args
    (set_download_schedule serve (Namespace.day args) (Namespace.hour args)
       (Namespace.minute args))
    (fun result => [Print "Download schedule updated."; PrintJson result]).

Definition cmd_set_proxy (args : Namespace.t) :=
  handler args
    (set_proxy serve (Namespace.server args) (Namespace.port args)
       (py_or (Namespace.proxy_user args) "")
       (py_or (Namespace.proxy_password args) ""))
    (fun result => [Print "Proxy configured."; PrintJson result]).

Definition cmd_clear_proxy (args : Namespace.t) :=
  handler args (clear_proxy serve)
    (fun result => [Print "Proxy removed."; PrintJson result]).

Definition cmd_set_source (args : Namespace.t) :=
  handler args
    (set_download_source serve (Namespace.type args)
       (py_or (Namespace.umds_url args) ""))
    (fun result =>
       [Print ("Download source set to " +:+ Namespace.type args +:+ ".");
        PrintJson result]).

End Commands.

(** ** Predicates used in the statements *)

(** A request of the download operations: a GET, PUT or POST that carries
    the headers [h] and no [auth=] pair. *)
Definition plain_request (h : gmap string json) (r : request) : Prop :=
  headers r = h ∧ auth r = None
  ∧ (method r = GET ∨ method r = PUT ∨ method r = POST).

(** [m] leaves the client object alone and sends only plain requests with
    the client's session headers. *)
Definition polite {remote A} (m : state remote -> result A * state remote)
    : Prop :=
  ∀ s, client (snd (m s)) = client s
       ∧ ∃ l, sent (snd (m s)) = sent s ++ l
              ∧ Forall (plain_request (session_headers (client s))) l.

(** The request sent by [login]. *)
Definition login_request (c : VCenterClient) : request :=
  {| method := POST; url := base_url c +:+ "/api/session";
     headers := session_headers c;
     auth := Some (username c, password c); req_json := None |}.

(** The client after a [login] that obtained [sid]. *)
Definition logged_in (c : VCenterClient) (sid : json) : VCenterClient :=
  {| base_url := base_url c; username := username c; password := password c;
     verify_ssl := verify_ssl c;
     session_headers := <[ "vmware-api-session-id" := sid ]> (session_headers c);
     _session_id := sid |}.

(** The client after a [logout] that sent its DELETE. *)
Definition logged_out (c : VCenterClient) : VCenterClient :=
  {| base_url := base_url c; username := username c; password := password c;
     verify_ssl := verify_ssl c;
     session_headers := session_headers c;
     _session_id := JNull |}.

(** The public operations of [downloads.py], each with its arguments. *)
Inductive operation : Type :=
  | GetDownloadSettings
  | ConfigureDownloadSettings (settings : DownloadSettings.t)
  | EnableAutoDownload
  | DisableAutoDownload
  | SetDownloadSchedule (day : string) (hour minute : Z)
  | SetProxy (server : string) (port : Z) (username password : string)
  | ClearProxy
  | SetDownloadSource (source_type umds_url : string).

Definition run {remote} (serve : remote -> request -> remote * result response)
    (op : operation) : state remote -> result json * state remote :=
  match op with
  | GetDownloadSettings => get_download_settings serve
  | ConfigureDownloadSettings settings =>
      configure_download_settings serve settings
  | EnableAutoDownload => enable_auto_download serve
  | DisableAutoDownload => disable_auto_download serve
  | SetDownloadSchedule day hour minute =>
      set_download_schedule serve day hour minute
  | SetProxy server port username password =>
      set_proxy serve server port username password
  | ClearProxy => clear_proxy serve
  | SetDownloadSource source_type umds_url =>
      set_download_source serve source_type umds_url
  end.

(** Every request sent by [m] satisfies [P]. *)
Definition sends {remote X} (P : request -> Prop)
    (m : state remote -> X * state remote) : Prop :=
  ∀ s, ∃ l, sent (snd (m s)) = sent s ++ l ∧ Forall P l.

(** The laboratory appliance behind a connection that breaks when the
    session is deleted. *)
Definition flaky_serve (policy : json) (r : request) : json * result response :=
  match method r with
  | DELETE => (policy, Raise (RequestException "connection reset"))
  | _ => lab_serve policy r
  end.

(** An appliance that refuses every request with 401 Unauthorized, and one
    that cannot be reached at all. *)
Definition refusing_serve (u : unit) (r : request) : unit * result response :=
  (u, Ok {| status_code := 401; content := None |}).

Definition down_serve (u : unit) (r : request) : unit * result response :=
  (u, Raise (RequestException "connection refused")).

(** Command-line arguments with no connection flag at all. *)
Definition bare_args : Namespace.t :=
  Namespace.mk None None None false
    "EVERYDAY" 2 0 "proxy.corp.com" 8080 None None "INTERNET" None.

(** The laboratory appliance, except that it answers a login with an empty
    token. *)
Definition tokenless_serve (policy : json) (r : request)
    : json * result response :=
  match method r, auth r with
  | POST, Some _ => (policy, Ok {| status_code := 200; content := Some (JStr "") |})
  | _, _ => lab_serve policy r
  end.

(** The request of [get], [put] and [patch]. *)
Definition verb_request (c : VCenterClient) (m : http_method) (path : string)
    (body : option json) : request :=
  {| method := m; url := base_url c +:+ path; headers := session_headers c;
     auth := None; req_json := body |}.

(** Command-line arguments with [--host], [--username], [--password]. *)
Definition lab_args : Namespace.t :=
  Namespace.mk (Some "vc.lab") (Some "admin") (Some "secret") false
    "EVERYDAY" 2 0 "proxy.corp.com" 8080 None (Some "orphan") "UMDS" None.

(** * Properties *)

(** ** The data model *)

Example schedule_default_ok :
  DownloadSchedule.__init__ true "EVERYDAY" 2 0
  = Ok (DownloadSchedule.mk true "EVERYDAY" 2 0).
Proof. reflexivity. Qed.

Example schedule_day_checked_first :
  DownloadSchedule.__init__ true "monday" 24 60
  = Raise (ValueError ("Invalid day 'monday'. Must be one of "
                       +:+ DownloadSchedule.repr_VALID_DAYS)).
Proof. reflexivity. Qed.

Example settings_all_defaults :
  DownloadSettings.__init__ true (JBool true) None None None
  = Ok (DownloadSettings.mk true (JBool true)
          (DownloadSchedule.mk true "EVERYDAY" 2 0)
          (DownloadSource.mk "INTERNET" "")
          (ProxySettings.mk false "" 80 "" "")).
Proof. reflexivity. Qed.

Example proxy_without_credentials :
  ProxySettings.to_dict (ProxySettings.mk true "p" 8080 "" "")
  = {[ "enabled" := JBool true; "server" := JStr "p"; "port" := JInt 8080 ]}.
Proof. reflexivity. Qed.


Lemma valid_day_cases (day : string) :
  day ∈ DownloadSchedule._VALID_DAYS ↔
  day = "EVERYDAY" ∨ day = "MONDAY" ∨ day = "TUESDAY" ∨ day = "WEDNESDAY" ∨
  day = "THURSDAY" ∨ day = "FRIDAY" ∨ day = "SATURDAY" ∨ day = "SUNDAY".
Proof.
  unfold DownloadSchedule._VALID_DAYS.
  rewrite !elem_of_union, !elem_of_singleton. tauto.
Qed.

Lemma in_range_true (lo hi x : Z) :
  ((lo <=? x)%Z && (x <=? hi)%Z = true) ↔ (lo ≤ x ≤ hi)%Z.
Proof. rewrite andb_true_iff, !Z.leb_le. tauto. Qed.

Lemma schedule_post_init_ok (self : DownloadSchedule.t) :
  DownloadSchedule.__post_init__ self = Ok tt ↔
  DownloadSchedule.day self ∈ DownloadSchedule._VALID_DAYS
  ∧ (0 ≤ DownloadSchedule.hour self ≤ 23)%Z
  ∧ (0 ≤ DownloadSchedule.minute self ≤ 59)%Z.
Proof.
  unfold DownloadSchedule.__post_init__.
  rewrite <- !in_range_true.
  case_bool_decide as Hd; simpl.
  - destruct (_ && _) eqn:Hh; simpl.
    + destruct (_ && _) eqn:Hm in |- *; simpl; [tauto |].
      split; [discriminate | intros (_ & _ & ?); congruence].
    + split; [discriminate | intros (_ & ? & _); congruence].
  - split; [discriminate | tauto].
Qed.

(** C4: [ProxySettings.to_dict] yields [{"enabled": False}] alone when the
    proxy is disabled; the three keys enabled, server, port when it is
    enabled with an empty username; and the five keys enabled, server, port,
    username, password when it is enabled with a non-empty username. *)
Theorem ProxySettings_to_dict_keys
    (server : string) (port : Z) (username password : string) :
  (ProxySettings.to_dict (ProxySettings.mk false server port username password)
   = {[ "enabled" := JBool false ]}
   ∧ dom (ProxySettings.to_dict
            (ProxySettings.mk false server port username password))
     = {[ "enabled" ]})
  ∧ (ProxySettings.to_dict (ProxySettings.mk true server port "" password)
     = {[ "enabled" := JBool true; "server" := JStr server;
          "port" := JInt port ]}
     ∧ dom (ProxySettings.to_dict (ProxySettings.mk true server port "" password))
       = {[ "enabled"; "server"; "port" ]})
  ∧ ∀ (a : Ascii.ascii) (u : string),
      ProxySettings.to_dict
        (ProxySettings.mk true server port (String a u) password)
      = {[ "enabled" := JBool true; "server" := JStr server;
           "port" := JInt port; "username" := JStr (String a u);
           "password" := JStr password ]}
      ∧ dom (ProxySettings.to_dict
               (ProxySettings.mk true server port (String a u) password))
        = {[ "enabled"; "server"; "port"; "username"; "password" ]}.
Proof.
  repeat split; try reflexivity.
Qed.

(** C5 (amended): construction of a [DownloadSchedule] succeeds exactly when
    [day] is one of the eight values EVERYDAY, MONDAY..SUNDAY, [hour] is in
    0..23 and [minute] is in 0..59; a failure is a [ValueError] raised by the
    constructor whose message names the first offending field (day, then
    hour, then minute); after a success [to_dict] holds exactly the four
    fields enabled, day, hour, minute with the constructed values. *)
Theorem DownloadSchedule_construction
    (enabled : bool) (day : string) (hour minute : Z) :
  size DownloadSchedule._VALID_DAYS = 8%nat
  ∧ (is_ok (DownloadSchedule.__init__ enabled day hour minute) = true ↔
       (day = "EVERYDAY" ∨ day = "MONDAY" ∨ day = "TUESDAY"
        ∨ day = "WEDNESDAY" ∨ day = "THURSDAY" ∨ day = "FRIDAY"
        ∨ day = "SATURDAY" ∨ day = "SUNDAY")
       ∧ (0 ≤ hour ≤ 23)%Z ∧ (0 ≤ minute ≤ 59)%Z)
  ∧ (day ∉ DownloadSchedule._VALID_DAYS →
       DownloadSchedule.__init__ enabled day hour minute
       = Raise (ValueError ("Invalid day '" +:+ day
                            +:+ "'. Must be one of "
                            +:+ DownloadSchedule.repr_VALID_DAYS)))
  ∧ (day ∈ DownloadSchedule._VALID_DAYS → ¬ (0 ≤ hour ≤ 23)%Z →
       DownloadSchedule.__init__ enabled day hour minute
       = Raise (ValueError ("hour must be 0-23, got " +:+ pretty hour)))
  ∧ (day ∈ DownloadSchedule._VALID_DAYS → (0 ≤ hour ≤ 23)%Z →
     ¬ (0 ≤ minute ≤ 59)%Z →
       DownloadSchedule.__init__ enabled day hour minute
       = Raise (ValueError ("minute must be 0-59, got " +:+ pretty minute)))
  ∧ (∀ self, DownloadSchedule.__init__ enabled day hour minute = Ok self →
       self = DownloadSchedule.mk enabled day hour minute
       ∧ DownloadSchedule.to_dict self
         = {[ "enabled" := JBool enabled; "day" := JStr day;
              "hour" := JInt hour; "minute" := JInt minute ]}
       ∧ dom (DownloadSchedule.to_dict self)
         = {[ "enabled"; "day"; "hour"; "minute" ]}).
Proof.
  unfold DownloadSchedule.__init__, DownloadSchedule.__post_init__.
  cbn [DownloadSchedule.day DownloadSchedule.hour DownloadSchedule.minute].
  rewrite <- valid_day_cases.
  split; [reflexivity |].
  case_bool_decide as Hd; cbn [negb].
  - destruct ((0 <=? hour)%Z && (hour <=? 23)%Z) eqn:Hh; cbn [negb].
    + destruct ((0 <=? minute)%Z && (minute <=? 59)%Z) eqn:Hm; cbn [negb].
      * apply in_range_true in Hh, Hm. cbn [result_bind is_ok].
        repeat split; try tauto; try (intros; tauto).
        all: match goal with H : Ok _ = Ok _ |- _ => injection H as <- end;
          reflexivity.
      * apply in_range_true in Hh.
        assert (¬ (0 ≤ minute ≤ 59)%Z) by (rewrite <- in_range_true; congruence).
        cbn [result_bind is_ok].
        repeat split; try tauto; try discriminate; try (intros; tauto).
    + assert (¬ (0 ≤ hour ≤ 23)%Z) by (rewrite <- in_range_true; congruence).
      cbn [result_bind is_ok].
      repeat split; try tauto; try discriminate; try (intros; tauto).
  - cbn [result_bind is_ok].
    repeat split; try tauto; try discriminate; try (intros; tauto).
Qed.

Lemma schedule_init_ok_iff (enabled : bool) (day : string) (hour minute : Z) :
  is_ok (DownloadSchedule.__init__ enabled day hour minute) = true ↔
  day ∈ DownloadSchedule._VALID_DAYS ∧ (0 ≤ hour ≤ 23)%Z ∧ (0 ≤ minute ≤ 59)%Z.
Proof.
  rewrite <- (schedule_post_init_ok (DownloadSchedule.mk enabled day hour minute)).
  unfold DownloadSchedule.__init__.
  destruct (DownloadSchedule.__post_init__ _) as [[] | e]; simpl.
  - tauto.
  - split; discriminate.
Qed.

Lemma DownloadSchedule_construction_witness :
  is_ok (DownloadSchedule.__init__ true "MONDAY" 3 30) = true
  ∧ DownloadSchedule.__init__ true "Monday" 3 30
    = Raise (ValueError ("Invalid day 'Monday'. Must be one of "
                         +:+ DownloadSchedule.repr_VALID_DAYS))
  ∧ DownloadSchedule.__init__ true "MONDAY" 24 30
    = Raise (ValueError "hour must be 0-23, got 24")
  ∧ DownloadSchedule.__init__ true "MONDAY" 3 (-1)
    = Raise (ValueError "minute must be 0-59, got -1")
  ∧ DownloadSchedule.to_dict (DownloadSchedule.mk true "MONDAY" 3 30)
    = {[ "enabled" := JBool true; "day" := JStr "MONDAY";
         "hour" := JInt 3; "minute" := JInt 30 ]}.
Proof.
  split; [| split; [| split; [| split]]].
  - apply (DownloadSchedule_construction true "MONDAY" 3 30).
    split; [right; left; reflexivity | lia].
  - apply (DownloadSchedule_construction true "Monday" 3 30).
    intros H. apply valid_day_cases in H.
    repeat (destruct H as [H | H]; [discriminate H |]). discriminate H.
  - apply (DownloadSchedule_construction true "MONDAY" 24 30).
    + apply valid_day_cases. right; left; reflexivity.
    + lia.
  - apply (DownloadSchedule_construction true "MONDAY" 3 (-1)).
    + apply valid_day_cases. right; left; reflexivity.
    + lia.
    + lia.
  - destruct (DownloadSchedule_construction true "MONDAY" 3 30)
      as (_ & _ & _ & _ & _ & Hdict).
    apply (Hdict (DownloadSchedule.mk true "MONDAY" 3 30)). reflexivity.
Defined.

(** C5, as first stated with nine day values: no duplicate-free list of nine
    strings is the set of accepted days. *)
Lemma DownloadSchedule_days_not_nine :
  ¬ ∃ days : list string,
      NoDup days ∧ length days = 9%nat
      ∧ ∀ (day : string) (hour minute : Z),
          is_ok (DownloadSchedule.__init__ true day hour minute) = true ↔
          day ∈ days ∧ (0 ≤ hour ≤ 23)%Z ∧ (0 ≤ minute ≤ 59)%Z.
Proof.
  intros (days & Hnd & Hlen & Hiff).
  assert (Hsub : days ⊆+ elements DownloadSchedule._VALID_DAYS).
  { apply NoDup_submseteq; [exact Hnd |].
    intros d Hd. apply elem_of_elements.
    assert (Hok : is_ok (DownloadSchedule.__init__ true d 0 0) = true).
    { apply Hiff. split; [exact Hd | lia]. }
    apply schedule_init_ok_iff in Hok. tauto. }
  apply submseteq_length in Hsub.
  rewrite Hlen in Hsub.
  change (length (elements DownloadSchedule._VALID_DAYS))
    with (size DownloadSchedule._VALID_DAYS) in Hsub.
  assert (Hsz : size DownloadSchedule._VALID_DAYS = 8%nat) by reflexivity.
  lia.
Qed.

(** C8: [DownloadSource] construction raises a [ValueError] for every
    [source_type] other than "INTERNET" and "UMDS", and succeeds for both of
    these with any [umds_url] whatever, the empty string included. *)
Theorem DownloadSource_construction (source_type umds_url : string) :
  (source_type ≠ "INTERNET" → source_type ≠ "UMDS" →
     DownloadSource.__init__ source_type umds_url
     = Raise (ValueError ("source_type must be 'INTERNET' or 'UMDS', got '"
                          +:+ source_type +:+ "'")))
  ∧ DownloadSource.__init__ "INTERNET" umds_url
    = Ok (DownloadSource.mk "INTERNET" umds_url)
  ∧ DownloadSource.__init__ "UMDS" umds_url
    = Ok (DownloadSource.mk "UMDS" umds_url)
  ∧ DownloadSource.__init__ "UMDS" ""
    = Ok (DownloadSource.mk "UMDS" "").
Proof.
  repeat split.
  intros Hi Hu. unfold DownloadSource.__init__, DownloadSource.__post_init__.
  cbn [DownloadSource.source_type].
  case_bool_decide as Hin; [| reflexivity].
  apply elem_of_cons in Hin as [-> | Hin]; [done |].
  apply elem_of_cons in Hin as [-> | Hin]; [done |].
  by apply elem_of_nil in Hin.
Qed.

Lemma DownloadSource_construction_witness :
  DownloadSource.__init__ "FTP" "ftp://depot"
  = Raise (ValueError "source_type must be 'INTERNET' or 'UMDS', got 'FTP'").
Proof.
  apply (DownloadSource_construction "FTP" "ftp://depot"); discriminate.
Defined.

(** ** The operations *)

Section OperationProperties.

Context {remote : Type}.
Variable serve : remote -> request -> remote * result response.

Implicit Types (s : state remote) (settings : DownloadSettings.t).

(** *** One exchange *)

Lemma get_run (path : string) s :
  let r := {| method := GET; url := base_url (client s) +:+ path;
              headers := session_headers (client s);
              auth := None; req_json := None |} in
  get serve path s =
  (match snd (serve (appliance s) r) with
   | Ok resp => if error_status resp then Raise (HTTPError (status_code resp))
                else Ok resp
   | Raise e => Raise e
   end, exchanged s r (fst (serve (appliance s) r))).
Proof.
  unfold get, session_send, session_request, bind, get_self, raise_for_status,
    exchanged, error_status, raise, ret; simpl.
  destruct (serve _ _) as [a' [resp | e]]; simpl; [| reflexivity].
  destruct (_ && _); reflexivity.
Qed.

Lemma put_run (path : string) (body : option json) s :
  let r := {| method := PUT; url := base_url (client s) +:+ path;
              headers := session_headers (client s);
              auth := None; req_json := body |} in
  put serve path body s =
  (match snd (serve (appliance s) r) with
   | Ok resp => if error_status resp then Raise (HTTPError (status_code resp))
                else Ok resp
   | Raise e => Raise e
   end, exchanged s r (fst (serve (appliance s) r))).
Proof.
  unfold put, session_send, session_request, bind, get_self, raise_for_status,
    exchanged, error_status, raise, ret; simpl.
  destruct (serve _ _) as [a' [resp | e]]; simpl; [| reflexivity].
  destruct (_ && _); reflexivity.
Qed.

Lemma get_download_settings_run s :
  get_download_settings serve s =
  (match snd (serve (appliance s) (policy_get_request (client s))) with
   | Ok resp =>
       if error_status resp then Raise (HTTPError (status_code resp))
       else match content resp with
            | Some v => Ok v
            | None => Raise JSONDecodeError
            end
   | Raise e => Raise e
   end,
   exchanged s (policy_get_request (client s))
     (fst (serve (appliance s) (policy_get_request (client s))))).
Proof.
  unfold get_download_settings, bind. rewrite get_run. cbv zeta.
  fold (policy_get_request (client s)).
  destruct (snd (serve _ _)) as [resp | e]; [| reflexivity].
  destruct (error_status resp); [reflexivity |].
  unfold response_json, ret, raise.
  destruct (content resp); reflexivity.
Qed.

(** Whatever the appliance answers to the registration, and even when the
    exchange itself fails, [_register_umds_depot] returns normally. *)
Lemma register_umds_depot_run (depot_url : string) s :
  _register_umds_depot serve depot_url s =
  (Ok tt,
   exchanged s (depot_post_request (client s) depot_url)
     (fst (serve (appliance s) (depot_post_request (client s) depot_url)))).
Proof.
  unfold _register_umds_depot, try_except, session_send, session_request, bind,
    get_self, raise_for_status, exchanged, raise, ret, depot_post_request; simpl.
  destruct (serve _ _) as [a' [resp | e]]; simpl; [| reflexivity].
  destruct (_ && _); reflexivity.
Qed.

Lemma configure_run settings s :
  configure_download_settings serve settings s =
  match put serve _UPDATE_POLICY_PATH (Some (JObj (policy_document settings))) s with
  | (Ok _, s1) =>
      if wants_depot settings then
        get_download_settings serve
          (snd (_register_umds_depot serve
                  (DownloadSource.umds_url (DownloadSettings.source settings)) s1))
      else get_download_settings serve s1
  | (Raise e, s1) => (Raise e, s1)
  end.
Proof.
  unfold configure_download_settings, bind. fold (wants_depot settings).
  destruct (put _ _ _ _) as [[resp | e] s1]; [| reflexivity].
  destruct (wants_depot settings).
  - rewrite register_umds_depot_run. reflexivity.
  - reflexivity.
Qed.

Lemma issued_app s (s' : state remote) (l : list request) :
  sent s' = sent s ++ l → issued s s' = l.
Proof. unfold issued. intros ->. apply drop_app_length. Qed.

Lemma wants_depot_iff settings :
  wants_depot settings = true ↔
  DownloadSource.source_type (DownloadSettings.source settings) = "UMDS"
  ∧ DownloadSource.umds_url (DownloadSettings.source settings) ≠ "".
Proof.
  unfold wants_depot. rewrite andb_true_iff, String.eqb_eq.
  destruct (DownloadSource.umds_url _); simpl; split; intros [? ?];
    split; congruence.
Qed.

(** Everything [configure_download_settings] sends: the policy write, then,
    if the write went through, the registration when it is wanted and the
    re-read. *)
Lemma configure_sent settings s :
  let c := client s in
  let written := put serve _UPDATE_POLICY_PATH
                   (Some (JObj (policy_document settings))) s in
  sent (snd (configure_download_settings serve settings s)) =
  sent s ++ policy_put_request c (policy_document settings) ::
    (if is_ok (fst written) then
       (if wants_depot settings
        then [depot_post_request c
                (DownloadSource.umds_url (DownloadSettings.source settings))]
        else []) ++ [policy_get_request c]
     else []).
Proof.
  cbv zeta. rewrite configure_run, put_run. cbv zeta.
  fold (policy_put_request (client s) (policy_document settings)).
  set (r := policy_put_request _ _).
  destruct (snd (serve (appliance s) r)) as [resp | e]; cbn [fst is_ok];
    [destruct (error_status resp); cbn [fst is_ok] |]; try reflexivity.
  destruct (wants_depot settings).
  - rewrite register_umds_depot_run, get_download_settings_run.
    cbn [snd sent exchanged client]. rewrite <- !app_assoc. reflexivity.
  - rewrite get_download_settings_run.
    cbn [snd sent exchanged client]. rewrite <- !app_assoc. reflexivity.
Qed.

(** C9: [get_download_settings] sends exactly one request, the GET of the
    update-policy resource, and nothing else (no write); it returns a value
    exactly when the appliance answered that GET without an error status and
    with a JSON body, and the value returned is that body, unchanged. *)
Theorem get_download_settings_single_get s :
  issued s (snd (get_download_settings serve s))
  = [policy_get_request (client s)]
  ∧ url (policy_get_request (client s))
    = base_url (client s) +:+ "/api/appliance/update/policy"
  ∧ client (snd (get_download_settings serve s)) = client s
  ∧ ∀ v : json,
      fst (get_download_settings serve s) = Ok v ↔
      ∃ resp, snd (serve (appliance s) (policy_get_request (client s))) = Ok resp
              ∧ error_status resp = false
              ∧ content resp = Some v.
Proof.
  rewrite get_download_settings_run. cbn [fst snd].
  split; [apply issued_app; reflexivity |].
  split; [reflexivity |]. split; [reflexivity |].
  intros v. destruct (snd (serve _ _)) as [resp | e].
  - destruct (error_status resp) eqn:Herr.
    + split; [discriminate |]. intros (resp' & [= <-] & ? & _). congruence.
    + destruct (content resp) as [b |] eqn:Hb.
      * split.
        -- intros [= <-]. exists resp. auto.
        -- intros (resp' & [= <-] & _ & Hc). congruence.
      * split; [discriminate |]. intros (resp' & [= <-] & _ & Hc). congruence.
  - split; [discriminate |]. intros (resp' & [=] & _).
Qed.

(** C2: the first request of [configure_download_settings] is the PUT of the
    policy document, and it is its only PUT; in that document auto_stage is
    [settings.auto_download_enabled], check_schedule is the one-element list
    of [settings.schedule.to_dict()], custom_URL, username and password are
    empty strings, and the key proxy is present, with value
    [settings.proxy.to_dict()], exactly when [settings.proxy.enabled]. *)
Theorem configure_writes_policy_document settings s :
  ∃ (policy : gmap string json) (rest : list request),
    issued s (snd (configure_download_settings serve settings s))
    = policy_put_request (client s) policy :: rest
    ∧ requests_of PUT rest = []
    ∧ policy !! "auto_stage"
      = Some (DownloadSettings.auto_download_enabled settings)
    ∧ policy !! "check_schedule"
      = Some (JList [JObj (DownloadSchedule.to_dict
                             (DownloadSettings.schedule settings))])
    ∧ policy !! "custom_URL" = Some (JStr "")
    ∧ policy !! "username" = Some (JStr "")
    ∧ policy !! "password" = Some (JStr "")
    ∧ (is_Some (policy !! "proxy") ↔
       ProxySettings.enabled (DownloadSettings.proxy settings) = true)
    ∧ policy !! "proxy"
      = (if ProxySettings.enabled (DownloadSettings.proxy settings)
         then Some (JObj (ProxySettings.to_dict (DownloadSettings.proxy settings)))
         else None)
    ∧ dom policy ⊆ {[ "custom_URL"; "auto_stage"; "check_schedule";
                      "username"; "password"; "proxy" ]}.
Proof.
  exists (policy_document settings). eexists.
  split; [apply issued_app, configure_sent |].
  split.
  { destruct (is_ok _); [| reflexivity].
    destruct (wants_depot settings); reflexivity. }
  unfold policy_document.
  destruct (ProxySettings.enabled (DownloadSettings.proxy settings)).
  - repeat split; try reflexivity; eauto.
  - repeat split; try reflexivity.
    + intros [? ?]; discriminate.
    + discriminate.
    + set_solver.
Qed.

(** C7: two settings that differ only in [auto_check_enabled] make
    [configure_download_settings] send the same requests, leave the same
    state and return the same result; the field is no key of the policy
    document. *)
Theorem auto_check_enabled_is_ignored
    (check1 check2 : bool) (auto_download_enabled : json)
    (schedule : DownloadSchedule.t) (source : DownloadSource.t)
    (proxy : ProxySettings.t) s :
  configure_download_settings serve
    (DownloadSettings.mk check1 auto_download_enabled schedule source proxy) s
  = configure_download_settings serve
      (DownloadSettings.mk check2 auto_download_enabled schedule source proxy) s
  ∧ policy_document
      (DownloadSettings.mk check1 auto_download_enabled schedule source proxy)
    = policy_document
        (DownloadSettings.mk check2 auto_download_enabled schedule source proxy)
  ∧ policy_document
      (DownloadSettings.mk check1 auto_download_enabled schedule source proxy)
    !! "auto_check_enabled" = None.
Proof.
  split; [| split].
  - rewrite !configure_run. reflexivity.
  - reflexivity.
  - unfold policy_document. cbn [DownloadSettings.proxy].
    destruct (ProxySettings.enabled proxy); reflexivity.
Qed.

(** C3: once the policy write has gone through,
    [configure_download_settings] sends exactly one depot registration,
    whose spec has [subscription_info.subscription_url] equal to
    [settings.source.umds_url], when [source_type] is "UMDS" and [umds_url]
    is non-empty, and none otherwise; and whatever the appliance answers to
    the registration (an error status, or an exchange that raises), the
    operation goes on to the re-read and returns what the re-read returns:
    [_register_umds_depot] itself always returns normally, having sent its
    one POST. *)
Theorem configure_depot_registration settings s :
  is_ok (fst (put serve _UPDATE_POLICY_PATH
                (Some (JObj (policy_document settings))) s)) = true →
  (requests_of POST
     (issued s (snd (configure_download_settings serve settings s)))
   = [depot_post_request (client s)
        (DownloadSource.umds_url (DownloadSettings.source settings))]
   ↔ DownloadSource.source_type (DownloadSettings.source settings) = "UMDS"
     ∧ DownloadSource.umds_url (DownloadSettings.source settings) ≠ "")
  ∧ (requests_of POST
       (issued s (snd (configure_download_settings serve settings s))) = []
     ↔ ¬ (DownloadSource.source_type (DownloadSettings.source settings) = "UMDS"
          ∧ DownloadSource.umds_url (DownloadSettings.source settings) ≠ ""))
  ∧ (((req_json (depot_post_request (client s)
                   (DownloadSource.umds_url (DownloadSettings.source settings)))
         ≫= json_get "create_spec") ≫= json_get "subscription_info")
       ≫= json_get "subscription_url"
     = Some (JStr (DownloadSource.umds_url (DownloadSettings.source settings))))
  ∧ (DownloadSource.source_type (DownloadSettings.source settings) = "UMDS"
     ∧ DownloadSource.umds_url (DownloadSettings.source settings) ≠ "" →
     configure_download_settings serve settings s
     = get_download_settings serve
         (exchanged
            (snd (put serve _UPDATE_POLICY_PATH
                    (Some (JObj (policy_document settings))) s))
            (depot_post_request (client s)
               (DownloadSource.umds_url (DownloadSettings.source settings)))
            (fst (serve
                    (appliance
                       (snd (put serve _UPDATE_POLICY_PATH
                               (Some (JObj (policy_document settings))) s)))
                    (depot_post_request (client s)
                       (DownloadSource.umds_url
                          (DownloadSettings.source settings)))))))
  ∧ (∀ (depot_url : string) (s0 : state remote),
       fst (_register_umds_depot serve depot_url s0) = Ok tt
       ∧ issued s0 (snd (_register_umds_depot serve depot_url s0))
         = [depot_post_request (client s0) depot_url]).
Proof.
  intros Hput. rewrite <- wants_depot_iff.
  rewrite (issued_app _ _ _ (configure_sent settings s)). cbv zeta.
  rewrite Hput.
  split; [| split; [| split; [| split]]].
  - destruct (wants_depot settings); cbn; split; try done.
  - destruct (wants_depot settings); cbn; split; try done.
  - reflexivity.
  - intros Hwants. rewrite configure_run.
    destruct (put serve _ _ s) as [[resp | e] s1] eqn:Hrun; [| discriminate].
    rewrite Hwants, register_umds_depot_run. cbn [snd].
    assert (Hc : client s1 = client s).
    { rewrite put_run in Hrun. injection Hrun as _ <-. reflexivity. }
    rewrite Hc. reflexivity.
  - intros depot_url s0. rewrite register_umds_depot_run. cbn [fst snd].
    split; [reflexivity | apply issued_app; reflexivity].
Qed.

(** C6: [disable_auto_download] is [configure_download_settings] on the
    settings with auto_check_enabled and auto_download_enabled false, the
    schedule disabled, and source and proxy as constructed by default
    (INTERNET, proxy disabled); its first request is the policy PUT, with no
    read before it, that PUT is its only write, and no depot is registered. *)
Theorem disable_auto_download_resets s :
  disable_auto_download serve s
  = configure_download_settings serve
      (DownloadSettings.mk false (JBool false)
         (DownloadSchedule.mk false "EVERYDAY" 2 0)
         (DownloadSource.mk "INTERNET" "")
         (ProxySettings.mk false "" 80 "" "")) s
  ∧ ∃ rest : list request,
      issued s (snd (disable_auto_download serve s))
      = policy_put_request (client s)
          {[ "custom_URL" := JStr "";
             "auto_stage" := JBool false;
             "check_schedule" := JList [JObj
               {[ "enabled" := JBool false; "day" := JStr "EVERYDAY";
                  "hour" := JInt 2; "minute" := JInt 0 ]}];
             "username" := JStr "";
             "password" := JStr "" ]} :: rest
      ∧ (rest = [] ∨ rest = [policy_get_request (client s)]).
Proof.
  assert (Heq : disable_auto_download serve s
    = configure_download_settings serve
        (DownloadSettings.mk false (JBool false)
           (DownloadSchedule.mk false "EVERYDAY" 2 0)
           (DownloadSource.mk "INTERNET" "")
           (ProxySettings.mk false "" 80 "" "")) s) by reflexivity.
  split; [exact Heq |].
  rewrite Heq. eexists. split.
  - apply issued_app. rewrite configure_sent. cbv zeta. reflexivity.
  - cbn [wants_depot]. destruct (is_ok _); [right | left]; reflexivity.
Qed.

Lemma py_get_dict (current : gmap string json) (key : string) (dflt : json) :
  py_get (JObj current) key dflt = Ok (default dflt (current !! key)).
Proof. reflexivity. Qed.

(** C1: when the read of the current settings returns the dict [current],
    each of [set_download_schedule], [set_proxy], [clear_proxy] and
    [set_download_source] starts with that read and then is
    [configure_download_settings] on the settings made of
    [current.get("auto_stage", True)], the targeted field, and the
    construction defaults for every other field; so [set_proxy] writes a
    policy whose check_schedule is the single entry
    {enabled: true, day: "EVERYDAY", hour: 2, minute: 0}, whatever schedule
    [current] holds. *)
Theorem convenience_operations_merge_auto_stage_only
    s (current : gmap string json) (s1 : state remote) :
  get_download_settings serve s = (Ok (JObj current), s1) →
  issued s s1 = [policy_get_request (client s)]
  ∧ (∀ (day : string) (hour minute : Z) (schedule : DownloadSchedule.t),
       DownloadSchedule.__init__ true day hour minute = Ok schedule →
       set_download_schedule serve day hour minute s
       = configure_download_settings serve
           (DownloadSettings.mk true
              (default (JBool true) (current !! "auto_stage"))
              schedule
              (DownloadSource.mk "INTERNET" "")
              (ProxySettings.mk false "" 80 "" "")) s1)
  ∧ (∀ (server : string) (port : Z) (username password : string),
       set_proxy serve server port username password s
       = configure_download_settings serve
           (DownloadSettings.mk true
              (default (JBool true) (current !! "auto_stage"))
              (DownloadSchedule.mk true "EVERYDAY" 2 0)
              (DownloadSource.mk "INTERNET" "")
              (ProxySettings.mk true server port username password)) s1)
  ∧ clear_proxy serve s
    = configure_download_settings serve
        (DownloadSettings.mk true
           (default (JBool true) (current !! "auto_stage"))
           (DownloadSchedule.mk true "EVERYDAY" 2 0)
           (DownloadSource.mk "INTERNET" "")
           (ProxySettings.mk false "" 80 "" "")) s1
  ∧ (∀ (source_type umds_url : string) (source : DownloadSource.t),
       DownloadSource.__init__ source_type umds_url = Ok source →
       set_download_source serve source_type umds_url s
       = configure_download_settings serve
           (DownloadSettings.mk true
              (default (JBool true) (current !! "auto_stage"))
              (DownloadSchedule.mk true "EVERYDAY" 2 0)
              source
              (ProxySettings.mk false "" 80 "" "")) s1)
  ∧ (∀ (server : string) (port : Z) (username password : string),
       ∃ (policy : gmap string json) (rest : list request),
         issued s (snd (set_proxy serve server port username password s))
         = policy_get_request (client s)
             :: policy_put_request (client s) policy :: rest
         ∧ policy !! "check_schedule"
           = Some (JList [JObj
               {[ "enabled" := JBool true; "day" := JStr "EVERYDAY";
                  "hour" := JInt 2; "minute" := JInt 0 ]}])
         ∧ policy !! "auto_stage"
           = Some (default (JBool true) (current !! "auto_stage"))).
Proof.
  intros Hread.
  assert (Hs1 : sent s1 = sent s ++ [policy_get_request (client s)]
                ∧ client s1 = client s).
  { rewrite get_download_settings_run in Hread.
    injection Hread as _ <-. split; reflexivity. }
  destruct Hs1 as [Hsent Hclient].
  assert (Hproxy : ∀ server port username password,
    set_proxy serve server port username password s
    = configure_download_settings serve
        (DownloadSettings.mk true
           (default (JBool true) (current !! "auto_stage"))
           (DownloadSchedule.mk true "EVERYDAY" 2 0)
           (DownloadSource.mk "INTERNET" "")
           (ProxySettings.mk true server port username password)) s1).
  { intros. unfold set_proxy, bind at 1. rewrite Hread.
    unfold bind, lift. rewrite py_get_dict. reflexivity. }
  split; [apply issued_app, Hsent |].
  split; [| split; [exact Hproxy | split; [| split]]].
  - intros day hour minute schedule Hmade.
    unfold set_download_schedule, bind at 1. rewrite Hread.
    unfold bind, lift. rewrite py_get_dict, Hmade. reflexivity.
  - unfold clear_proxy, bind at 1. rewrite Hread.
    unfold bind, lift. rewrite py_get_dict. reflexivity.
  - intros source_type umds_url source Hmade.
    unfold set_download_source, bind at 1. rewrite Hread.
    unfold bind, lift. rewrite py_get_dict, Hmade. reflexivity.
  - intros server port username password.
    rewrite Hproxy. eexists. eexists. split; [| split].
    + apply issued_app. rewrite configure_sent. cbv zeta.
      rewrite Hsent, Hclient, <- app_assoc. reflexivity.
    + reflexivity.
    + reflexivity.
Qed.

(** C10: [logout] without an active session sends nothing and leaves the
    state as it is; two logouts in a row do what one does; and after a
    logout that returned, no session is active and a further logout changes
    nothing. *)
Theorem logout_idempotent s :
  (truthy (_session_id (client s)) = false → logout serve s = (Ok tt, s))
  ∧ bind (logout serve) (fun _ => logout serve) s = logout serve s
  ∧ (∀ s' : state remote,
       logout serve s = (Ok tt, s') →
       truthy (_session_id (client s')) = false
       ∧ logout serve s' = (Ok tt, s')).
Proof.
  assert (Hidle : ∀ s0 : state remote,
    truthy (_session_id (client s0)) = false → logout serve s0 = (Ok tt, s0)).
  { intros s0 H0. unfold logout, bind, get_self. rewrite H0. reflexivity. }
  assert (Hafter : ∀ s' : state remote,
    logout serve s = (Ok tt, s') → truthy (_session_id (client s')) = false).
  { intros s'. unfold logout, session_send, session_request, bind, get_self,
      set_self, ret.
    destruct (truthy (_session_id (client s))) eqn:Hactive.
    - cbn. destruct (serve _ _) as [a' [resp | e]]; [| discriminate].
      intros [= <-]. reflexivity.
    - intros [= <-]. exact Hactive. }
  split; [apply Hidle |]. split.
  - unfold bind at 1.
    destruct (logout serve s) as [[[] | e] s'] eqn:Hrun; [| reflexivity].
    apply Hidle, (Hafter s' eq_refl).
  - intros s' Hrun. split; [apply Hafter, Hrun | apply Hidle, Hafter, Hrun].
Qed.

End OperationProperties.

(** ** The operations on the laboratory appliance *)

Example lab_login_sets_header :
  _session_id (client lab_session) = JStr "token"
  ∧ session_headers (client lab_session)
    = {[ "vmware-api-session-id" := JStr "token" ]}.
Proof. split; reflexivity. Qed.

(** [set_proxy] after a MONDAY 03:30 schedule: the schedule written is the
    default one, and auto_stage is carried over. *)
Example lab_set_proxy_resets_schedule :
  fst (set_proxy lab_serve "proxy.corp.com" 8080 "" "" (lab_state monday_policy))
  = Ok (JObj
      {[ "custom_URL" := JStr "";
         "auto_stage" := JBool false;
         "check_schedule" := JList [JObj
           {[ "enabled" := JBool true; "day" := JStr "EVERYDAY";
              "hour" := JInt 2; "minute" := JInt 0 ]}];
         "username" := JStr "";
         "password" := JStr "";
         "proxy" := JObj
           {[ "enabled" := JBool true; "server" := JStr "proxy.corp.com";
              "port" := JInt 8080 ]} ]}).
Proof. reflexivity. Qed.

Example lab_set_schedule_bad_hour :
  set_download_schedule lab_serve "MONDAY" 25 0 (lab_state monday_policy)
  = (Raise (ValueError "hour must be 0-23, got 25"),
     exchanged (lab_state monday_policy) (policy_get_request lab_client)
       monday_policy).
Proof. reflexivity. Qed.

Lemma convenience_operations_merge_auto_stage_only_witness :
  (∃ (policy : gmap string json) (rest : list request),
     issued (lab_state monday_policy)
       (snd (set_proxy lab_serve "proxy.corp.com" 8080 "" ""
               (lab_state monday_policy)))
     = policy_get_request lab_client
         :: policy_put_request lab_client policy :: rest
     ∧ policy !! "check_schedule"
       = Some (JList [JObj
           {[ "enabled" := JBool true; "day" := JStr "EVERYDAY";
              "hour" := JInt 2; "minute" := JInt 0 ]}])
     ∧ policy !! "auto_stage" = Some (JBool false))
  ∧ set_download_schedule lab_serve "MONDAY" 3 30 (lab_state monday_policy)
    = configure_download_settings lab_serve
        (DownloadSettings.mk true (JBool false)
           (DownloadSchedule.mk true "MONDAY" 3 30)
           (DownloadSource.mk "INTERNET" "")
           (ProxySettings.mk false "" 80 "" ""))
        (exchanged (lab_state monday_policy) (policy_get_request lab_client)
           monday_policy)
  ∧ set_download_source lab_serve "UMDS" "https://umds.local/depot"
      (lab_state monday_policy)
    = configure_download_settings lab_serve
        (DownloadSettings.mk true (JBool false)
           (DownloadSchedule.mk true "EVERYDAY" 2 0)
           (DownloadSource.mk "UMDS" "https://umds.local/depot")
           (ProxySettings.mk false "" 80 "" ""))
        (exchanged (lab_state monday_policy) (policy_get_request lab_client)
           monday_policy).
Proof.
  destruct (convenience_operations_merge_auto_stage_only lab_serve
              (lab_state monday_policy) monday_dict
              (exchanged (lab_state monday_policy)
                 (policy_get_request lab_client) monday_policy)
              eq_refl)
    as (_ & Hschedule & _ & _ & Hsource & Hproxy).
  split; [| split].
  - exact (Hproxy "proxy.corp.com" 8080%Z "" "").
  - exact (Hschedule "MONDAY" 3%Z 30%Z _ eq_refl).
  - exact (Hsource "UMDS" "https://umds.local/depot" _ eq_refl).
Defined.

Lemma configure_depot_registration_witness :
  requests_of POST
    (issued (lab_state monday_policy)
       (snd (configure_download_settings lab_serve umds_settings
               (lab_state monday_policy))))
  = [depot_post_request lab_client "https://umds.local/depot"]
  ∧ fst (configure_download_settings lab_serve umds_settings
           (lab_state monday_policy))
    = Ok (JObj (policy_document umds_settings)).
Proof.
  destruct (configure_depot_registration lab_serve umds_settings
              (lab_state monday_policy) eq_refl)
    as (Honce & _ & _ & Hreread & _).
  split.
  - apply Honce. split; [reflexivity | discriminate].
  - rewrite Hreread; [reflexivity |].
    split; [reflexivity | discriminate].
Defined.

Lemma logout_idempotent_witness :
  logout lab_serve (lab_state monday_policy)
  = (Ok tt, lab_state monday_policy)
  ∧ truthy (_session_id (client (snd (logout lab_serve lab_session)))) = false
  ∧ logout lab_serve (snd (logout lab_serve lab_session))
    = (Ok tt, snd (logout lab_serve lab_session)).
Proof.
  split.
  - apply (logout_idempotent lab_serve (lab_state monday_policy)).
    reflexivity.
  - apply (logout_idempotent lab_serve lab_session).
    reflexivity.
Defined.

(** * Further properties *)

Section MoreProperties.

Context {remote : Type}.
Variable serve : remote -> request -> remote * result response.

Implicit Types (s : state remote) (settings : DownloadSettings.t).

(** ** What the download operations send *)

Lemma polite_ret {A} (a : A) : polite (ret (remote := remote) a).
Proof.
  intros s. split; [reflexivity |]. exists []. split; [| constructor].
  symmetry. apply app_nil_r.
Qed.

Lemma polite_raise {A} (e : exn) : polite (raise (remote := remote) (A := A) e).
Proof.
  intros s. split; [reflexivity |]. exists []. split; [| constructor].
  symmetry. apply app_nil_r.
Qed.

Lemma polite_lift {A} (r : result A) : polite (lift (remote := remote) r).
Proof.
  intros s. split; [reflexivity |]. exists []. split; [| constructor].
  symmetry. apply app_nil_r.
Qed.

Lemma polite_bind {A B} (m : M A) (k : A -> M B) :
  polite m → (∀ a, polite (k a)) → polite (remote := remote) (bind m k).
Proof.
  intros Hm Hk s. unfold bind.
  destruct (Hm s) as (Hc & l & Hl & Hall).
  destruct (m s) as [[a | e] s1]; cbn [snd] in *.
  - destruct (Hk a s1) as (Hc' & l' & Hl' & Hall').
    split; [congruence |]. exists (l ++ l'). split.
    + rewrite Hl', Hl, app_assoc. reflexivity.
    + apply Forall_app. split; [exact Hall |]. rewrite <- Hc. exact Hall'.
  - split; [exact Hc |]. exists l. split; assumption.
Qed.

Lemma polite_try_except {A} (body : M A) (handler : exn -> M A) :
  polite body → (∀ e, polite (handler e)) →
  polite (remote := remote) (try_except body handler).
Proof.
  intros Hm Hk s. unfold try_except.
  destruct (Hm s) as (Hc & l & Hl & Hall).
  destruct (body s) as [[a | e] s1]; cbn [snd] in *.
  - split; [exact Hc |]. exists l. split; assumption.
  - destruct (Hk e s1) as (Hc' & l' & Hl' & Hall').
    split; [congruence |]. exists (l ++ l'). split.
    + rewrite Hl', Hl, app_assoc. reflexivity.
    + apply Forall_app. split; [exact Hall |]. rewrite <- Hc. exact Hall'.
Qed.

Lemma polite_get_self : polite (get_self (remote := remote)).
Proof.
  intros s. split; [reflexivity |]. exists []. split; [| constructor].
  symmetry. apply app_nil_r.
Qed.

Lemma polite_session_send (m : http_method) (u : string) (body : option json) :
  m = GET ∨ m = PUT ∨ m = POST →
  polite (session_send serve m u None body).
Proof.
  intros Hm s. unfold session_send, session_request, bind, get_self.
  destruct (serve _ _) as [a' out]. cbn [snd client sent].
  split; [reflexivity |]. eexists. split; [reflexivity |].
  constructor; [| constructor]. repeat split; assumption.
Qed.

Lemma polite_raise_for_status (resp : response) :
  polite (raise_for_status (remote := remote) resp).
Proof.
  unfold raise_for_status. destruct (_ && _);
    [apply polite_raise | apply polite_ret].
Qed.

Lemma polite_response_json (resp : response) :
  polite (response_json (remote := remote) resp).
Proof.
  unfold response_json. destruct (content resp);
    [apply polite_ret | apply polite_raise].
Qed.

Create HintDb polite discriminated.
#[local] Hint Resolve polite_ret polite_raise polite_lift polite_get_self
  polite_raise_for_status polite_response_json : polite.
#[local] Hint Extern 2 (polite (bind _ _)) =>
  apply polite_bind; [| intro] : polite.
#[local] Hint Extern 2 (polite (try_except _ _)) =>
  apply polite_try_except; [| intro] : polite.
#[local] Hint Extern 2 (polite (session_send _ _ _ None _)) =>
  apply polite_session_send; tauto : polite.

Lemma polite_get (path : string) : polite (get serve path).
Proof. unfold get. auto 10 with polite. Qed.

Lemma polite_put (path : string) (body : option json) :
  polite (put serve path body).
Proof. unfold put. auto 10 with polite. Qed.

Lemma polite_get_download_settings : polite (get_download_settings serve).
Proof.
  unfold get_download_settings. apply polite_bind; [apply polite_get | intro].
  apply polite_response_json.
Qed.

Lemma polite_register (depot_url : string) :
  polite (_register_umds_depot serve depot_url).
Proof. unfold _register_umds_depot. auto 10 with polite. Qed.

Lemma polite_configure settings :
  polite (configure_download_settings serve settings).
Proof.
  unfold configure_download_settings.
  apply polite_bind; [apply polite_put | intro].
  apply polite_bind; [| intro; apply polite_get_download_settings].
  destruct (_ && _); [apply polite_register | apply polite_ret].
Qed.

#[local] Hint Resolve polite_get_download_settings polite_configure : polite.

Lemma polite_run (op : operation) : polite (run serve op).
Proof.
  destruct op; cbn [run]; auto with polite.
  - unfold enable_auto_download. auto 10 with polite.
  - unfold disable_auto_download. auto 10 with polite.
  - unfold set_download_schedule. auto 10 with polite.
  - unfold set_proxy. auto 10 with polite.
  - unfold clear_proxy. auto 10 with polite.
  - unfold set_download_source. auto 10 with polite.
Qed.

(** X1: no operation of [downloads.py] changes the client object, and every
    request it sends is a GET, PUT or POST that carries the session headers
    of the client and no [auth=] credentials. *)
Theorem operations_send_plain_requests (op : operation) s :
  client (snd (run serve op s)) = client s
  ∧ Forall (plain_request (session_headers (client s)))
      (issued s (snd (run serve op s))).
Proof.
  destruct (polite_run op s) as (Hc & l & Hl & Hall).
  split; [exact Hc |]. rewrite (issued_app _ _ _ Hl). exact Hall.
Qed.

(** ** The session *)

Lemma login_run s :
  login serve s =
  match snd (serve (appliance s) (login_request (client s))) with
  | Ok resp =>
      if error_status resp then
        (Raise (HTTPError (status_code resp)),
         exchanged s (login_request (client s))
           (fst (serve (appliance s) (login_request (client s)))))
      else
        match content resp with
        | Some sid =>
            (Ok tt,
             Build_state (logged_in (client s) sid)
               (fst (serve (appliance s) (login_request (client s))))
               (sent s ++ [login_request (client s)]))
        | None =>
            (Raise JSONDecodeError,
             exchanged s (login_request (client s))
               (fst (serve (appliance s) (login_request (client s)))))
        end
  | Raise e =>
      (Raise e,
       exchanged s (login_request (client s))
         (fst (serve (appliance s) (login_request (client s)))))
  end.
Proof.
  unfold login, session_send, session_request, bind, get_self, set_self,
    raise_for_status, response_json, exchanged, error_status, raise, ret,
    login_request, logged_in; simpl.
  destruct (serve _ _) as [a' [resp | e]]; simpl; [| reflexivity].
  destruct (_ && _); [reflexivity |].
  destruct (content resp); reflexivity.
Qed.

Lemma logout_run s :
  logout serve s =
  if truthy (_session_id (client s)) then
    match snd (serve (appliance s) (session_delete_request (client s))) with
    | Ok _ =>
        (Ok tt,
         Build_state (logged_out (client s))
           (fst (serve (appliance s) (session_delete_request (client s))))
           (sent s ++ [session_delete_request (client s)]))
    | Raise e =>
        (Raise e,
         exchanged s (session_delete_request (client s))
           (fst (serve (appliance s) (session_delete_request (client s)))))
    end
  else (Ok tt, s).
Proof.
  unfold logout, session_send, session_request, bind, get_self, set_self,
    exchanged, ret, session_delete_request, logged_out.
  destruct (truthy _); [| reflexivity]. simpl.
  destruct (serve _ _) as [a' [resp | e]]; reflexivity.
Qed.

(** X2: [login] sends exactly one request, the POST of the session endpoint
    with the client's credentials as [auth=]. It returns exactly when the
    answer has no error status and a JSON body; the body then becomes both
    [_session_id] and the vmware-api-session-id header, the other attributes
    staying as they were. A [login] that raises leaves the client as it
    was. *)
Theorem login_outcome s :
  issued s (snd (login serve s)) = [login_request (client s)]
  ∧ auth (login_request (client s))
    = Some (username (client s), password (client s))
  ∧ (fst (login serve s) = Ok tt ↔
     ∃ resp sid,
       snd (serve (appliance s) (login_request (client s))) = Ok resp
       ∧ error_status resp = false ∧ content resp = Some sid)
  ∧ (∀ resp sid,
       snd (serve (appliance s) (login_request (client s))) = Ok resp →
       error_status resp = false → content resp = Some sid →
       client (snd (login serve s)) = logged_in (client s) sid)
  ∧ (fst (login serve s) ≠ Ok tt → client (snd (login serve s)) = client s).
Proof.
  rewrite login_run.
  destruct (snd (serve _ _)) as [resp | e].
  - destruct (error_status resp) eqn:Herr.
    + cbn [fst snd]. repeat split.
      * apply issued_app. reflexivity.
      * discriminate.
      * intros (r & sid & [= <-] & ? & _). congruence.
      * intros r sid [= <-]. congruence.
    + destruct (content resp) as [sid |] eqn:Hc; cbn [fst snd].
      * repeat split.
        -- apply issued_app. reflexivity.
        -- intros _. exists resp, sid. auto.
        -- intros r sid' [= <-] _ Hc'. rewrite Hc in Hc'.
           injection Hc' as <-. reflexivity.
        -- intros Hne. contradiction Hne. reflexivity.
      * repeat split.
        -- apply issued_app. reflexivity.
        -- discriminate.
        -- intros (r & sid & [= <-] & _ & ?). congruence.
        -- intros r sid [= <-]. congruence.
  - cbn [fst snd]. repeat split.
    + apply issued_app. reflexivity.
    + discriminate.
    + intros (r & sid & [=] & _).
    + intros r sid [=].
Qed.

(** X3: [logout] never looks at the status of the answer: with an active
    session, any answer to the DELETE, an error status included, makes it
    return with [_session_id] reset to [None]; it raises only when the
    exchange itself raises, and then the session id is kept. In every case
    the session headers are left as they were. *)
Theorem logout_outcome s :
  truthy (_session_id (client s)) = true →
  issued s (snd (logout serve s)) = [session_delete_request (client s)]
  ∧ (∀ resp,
       snd (serve (appliance s) (session_delete_request (client s))) = Ok resp →
       fst (logout serve s) = Ok tt
       ∧ _session_id (client (snd (logout serve s))) = JNull)
  ∧ (∀ e,
       snd (serve (appliance s) (session_delete_request (client s))) = Raise e →
       fst (logout serve s) = Raise e
       ∧ client (snd (logout serve s)) = client s)
  ∧ session_headers (client (snd (logout serve s)))
    = session_headers (client s).
Proof.
  intros Hactive. rewrite logout_run, Hactive.
  destruct (snd (serve _ _)) as [resp | e]; cbn [fst snd].
  - repeat split; try (apply issued_app; reflexivity); discriminate.
  - repeat split; try (apply issued_app; reflexivity);
      try discriminate; congruence.
Qed.

(** X4: the session header outlives the session: after a [login] and a
    [logout] that both returned, the vmware-api-session-id header still
    holds the token obtained by the login, although no session is active. *)
Theorem logout_keeps_session_header s (s1 s2 : state remote) :
  login serve s = (Ok tt, s1) →
  logout serve s1 = (Ok tt, s2) →
  session_headers (client s2) !! "vmware-api-session-id"
  = Some (_session_id (client s1))
  ∧ truthy (_session_id (client s2)) = false.
Proof.
  intros Hin Hout.
  assert (Hhdr : session_headers (client s1) !! "vmware-api-session-id"
                 = Some (_session_id (client s1))).
  { rewrite login_run in Hin.
    destruct (snd (serve _ _)) as [resp | e]; [| discriminate].
    destruct (error_status resp); [discriminate |].
    destruct (content resp) as [sid |]; [| discriminate].
    injection Hin as <-. cbn. apply lookup_insert_eq. }
  rewrite logout_run in Hout.
  destruct (truthy (_session_id (client s1))) eqn:Hactive.
  - destruct (snd (serve _ _)) as [resp | e]; [| discriminate].
    injection Hout as <-. cbn. split; [exact Hhdr | reflexivity].
  - injection Hout as <-. split; [exact Hhdr | exact Hactive].
Qed.

(** X5: after a [login] that returned, every request of every download
    operation carries the session token in the vmware-api-session-id
    header. *)
Theorem operations_carry_session_token (op : operation) s (s1 : state remote) :
  login serve s = (Ok tt, s1) →
  Forall (fun r => headers r !! "vmware-api-session-id"
                   = Some (_session_id (client s1)))
    (issued s1 (snd (run serve op s1))).
Proof.
  intros Hin.
  assert (Hhdr : session_headers (client s1) !! "vmware-api-session-id"
                 = Some (_session_id (client s1))).
  { rewrite login_run in Hin.
    destruct (snd (serve _ _)) as [resp | e]; [| discriminate].
    destruct (error_status resp); [discriminate |].
    destruct (content resp) as [sid |]; [| discriminate].
    injection Hin as <-. cbn. apply lookup_insert_eq. }
  destruct (polite_run op s1) as (_ & l & Hl & Hall).
  rewrite (issued_app _ _ _ Hl).
  eapply Forall_impl; [exact Hall |].
  intros r (Hh & _). rewrite Hh. exact Hhdr.
Qed.

(** ** The [with] block *)

Lemma login_sent s (s1 : state remote) (r : result unit) :
  login serve s = (r, s1) → sent s1 = sent s ++ [login_request (client s)].
Proof.
  rewrite login_run. intros H.
  destruct (snd (serve _ _)) as [resp | e].
  - destruct (error_status resp); [injection H as _ <-; reflexivity |].
    destruct (content resp); injection H as _ <-; reflexivity.
  - injection H as _ <-. reflexivity.
Qed.

(** X6: inside [with client:], once [login] has returned with a token that
    is truthy, the session DELETE is the last request sent, whether the
    operation of the block returned or raised: the requests are the login
    POST, those of the operation, and the DELETE. *)
Theorem with_client_always_logs_out (op : operation) s (s1 : state remote) :
  login serve s = (Ok tt, s1) →
  truthy (_session_id (client s1)) = true →
  issued s (snd (with_client serve (run serve op) s))
  = login_request (client s)
      :: issued s1 (snd (run serve op s1))
      ++ [session_delete_request (client s1)].
Proof.
  intros Hin Hactive.
  pose proof (login_sent _ _ _ Hin) as Hs1.
  destruct (polite_run op s1) as (Hc & l & Hl & _).
  rewrite (issued_app _ _ _ Hl).
  apply issued_app.
  unfold with_client, __enter__, __exit__. rewrite Hin.
  destruct (run serve op s1) as [[a | e] s2]; cbn [snd] in *;
    rewrite logout_run, Hc, Hactive;
    destruct (snd (serve _ _)); cbn [snd sent exchanged];
    rewrite Hl, Hs1, <- !app_assoc; reflexivity.
Qed.

(** X7: how a [with client:] block ends. If [login] raises, that exception
    propagates and nothing but the login POST is sent. If [login] returned
    and the DELETE of the logout is answered, whatever the status, the block
    ends as its operation did, with the same value or the same exception.
    If the exchange of the DELETE raises, that exception replaces the
    outcome of the operation, even a successful one. *)
Theorem with_client_outcome (op : operation) s :
  (∀ e, fst (login serve s) = Raise e →
     fst (with_client serve (run serve op) s) = Raise e
     ∧ issued s (snd (with_client serve (run serve op) s))
       = [login_request (client s)])
  ∧ (∀ (s1 : state remote),
       login serve s = (Ok tt, s1) →
       truthy (_session_id (client s1)) = true →
       (∀ resp,
          snd (serve (appliance (snd (run serve op s1)))
                 (session_delete_request (client s1))) = Ok resp →
          fst (with_client serve (run serve op) s) = fst (run serve op s1)
          ∧ _session_id (client (snd (with_client serve (run serve op) s)))
            = JNull)
       ∧ (∀ e',
            snd (serve (appliance (snd (run serve op s1)))
                   (session_delete_request (client s1))) = Raise e' →
            fst (with_client serve (run serve op) s) = Raise e')).
Proof.
  split.
  - intros e He. unfold with_client, __enter__.
    destruct (login serve s) as [[[] | e0] s1] eqn:Hin; [discriminate |].
    cbn [fst snd] in *. injection He as ->. split; [reflexivity |].
    apply issued_app. eapply login_sent. exact Hin.
  - intros s1 Hin Hactive.
    destruct (polite_run op s1) as (Hc & _).
    unfold with_client, __enter__, __exit__. rewrite Hin.
    destruct (run serve op s1) as [[a | e] s2]; cbn [fst snd] in *;
      rewrite logout_run, Hc, Hactive;
      (split; [intros resp Hresp | intros e' He']);
      first [rewrite Hresp | rewrite He']; cbn; auto.
Qed.

(** ** Failures of the write path *)

(** X8: when the policy PUT fails, by an error status or by an exchange that
    raises, [configure_download_settings] raises that failure and sends
    nothing more: no depot registration and no re-read. *)
Theorem configure_put_failure_stops settings s :
  (∀ resp,
     snd (serve (appliance s)
            (policy_put_request (client s) (policy_document settings)))
     = Ok resp →
     error_status resp = true →
     fst (configure_download_settings serve settings s)
     = Raise (HTTPError (status_code resp))
     ∧ issued s (snd (configure_download_settings serve settings s))
       = [policy_put_request (client s) (policy_document settings)])
  ∧ (∀ e,
       snd (serve (appliance s)
              (policy_put_request (client s) (policy_document settings)))
       = Raise e →
       fst (configure_download_settings serve settings s) = Raise e
       ∧ issued s (snd (configure_download_settings serve settings s))
         = [policy_put_request (client s) (policy_document settings)]).
Proof.
  split.
  - intros resp Hresp Herr. rewrite configure_run, put_run. cbv zeta.
    fold (policy_put_request (client s) (policy_document settings)).
    rewrite Hresp, Herr. cbn [fst snd]. split; [reflexivity |].
    apply issued_app. reflexivity.
  - intros e He. rewrite configure_run, put_run. cbv zeta.
    fold (policy_put_request (client s) (policy_document settings)).
    rewrite He. cbn [fst snd]. split; [reflexivity |].
    apply issued_app. reflexivity.
Qed.

(** X9: [enable_auto_download] reads nothing first: its first request is the
    PUT of the all-default policy (auto_stage true, the EVERYDAY 02:00
    schedule enabled, no proxy key), followed at most by the re-read. *)
Theorem enable_auto_download_resets s :
  ∃ rest : list request,
    issued s (snd (enable_auto_download serve s))
    = policy_put_request (client s)
        {[ "custom_URL" := JStr "";
           "auto_stage" := JBool true;
           "check_schedule" := JList [JObj
             {[ "enabled" := JBool true; "day" := JStr "EVERYDAY";
                "hour" := JInt 2; "minute" := JInt 0 ]}];
           "username" := JStr "";
           "password" := JStr "" ]} :: rest
    ∧ (rest = [] ∨ rest = [policy_get_request (client s)]).
Proof.
  assert (Heq : enable_auto_download serve s
    = configure_download_settings serve
        (DownloadSettings.mk true (JBool true)
           (DownloadSchedule.mk true "EVERYDAY" 2 0)
           (DownloadSource.mk "INTERNET" "")
           (ProxySettings.mk false "" 80 "" "")) s) by reflexivity.
  rewrite Heq. eexists. split.
  - apply issued_app. rewrite configure_sent. cbv zeta. reflexivity.
  - cbn [wants_depot]. destruct (is_ok _); [right | left]; reflexivity.
Qed.

Ltac read_cases :=
  rewrite get_download_settings_run;
  destruct (snd (serve _ _)) as [?resp | ?e];
    [destruct (error_status _);
       [| destruct (content _) as [[| | | | |] |]] |];
  cbn [py_get].

(** X10: [set_download_schedule] with a day, hour or minute that
    [DownloadSchedule] rejects, and [set_download_source] with a rejected
    source type, still send the GET of the current policy, then raise, and
    write nothing; when the read returned a dict, the exception is the
    [ValueError] of the constructor. *)
Theorem invalid_target_never_writes s :
  (∀ (day : string) (hour minute : Z) (e : exn),
     DownloadSchedule.__init__ true day hour minute = Raise e →
     issued s (snd (set_download_schedule serve day hour minute s))
     = [policy_get_request (client s)]
     ∧ is_ok (fst (set_download_schedule serve day hour minute s)) = false
     ∧ ∀ current s1,
         get_download_settings serve s = (Ok (JObj current), s1) →
         set_download_schedule serve day hour minute s = (Raise e, s1))
  ∧ (∀ (source_type umds_url : string) (e : exn),
       DownloadSource.__init__ source_type umds_url = Raise e →
       issued s (snd (set_download_source serve source_type umds_url s))
       = [policy_get_request (client s)]
       ∧ is_ok (fst (set_download_source serve source_type umds_url s)) = false
       ∧ ∀ current s1,
           get_download_settings serve s = (Ok (JObj current), s1) →
           set_download_source serve source_type umds_url s = (Raise e, s1)).
Proof.
  split.
  - intros day hour minute e Hbad.
    unfold set_download_schedule, bind, lift. rewrite Hbad.
    read_cases; cbn [fst snd is_ok];
      (split; [apply issued_app; reflexivity |]);
      (split; [reflexivity |]); intros current s1 Heq;
      try discriminate Heq; inversion Heq; reflexivity.
  - intros source_type umds_url e Hbad.
    unfold set_download_source, bind, lift. rewrite Hbad.
    read_cases; cbn [fst snd is_ok];
      (split; [apply issued_app; reflexivity |]);
      (split; [reflexivity |]); intros current s1 Heq;
      try discriminate Heq; inversion Heq; reflexivity.
Qed.

(** X11: when the appliance returns a policy that is no JSON object (a
    list, a string, a number, a boolean or null), each of the four
    convenience operations raises [AttributeError] right after the read and
    writes nothing. *)
Theorem non_dict_policy_raises s (current : json) (s1 : state remote) :
  get_download_settings serve s = (Ok current, s1) →
  (∀ m, current ≠ JObj m) →
  issued s s1 = [policy_get_request (client s)]
  ∧ ∃ msg : string,
      (∀ day hour minute,
         set_download_schedule serve day hour minute s
         = (Raise (AttributeError msg), s1))
      ∧ (∀ server port username password,
           set_proxy serve server port username password s
           = (Raise (AttributeError msg), s1))
      ∧ clear_proxy serve s = (Raise (AttributeError msg), s1)
      ∧ (∀ source_type umds_url,
           set_download_source serve source_type umds_url s
           = (Raise (AttributeError msg), s1)).
Proof.
  intros Hread Hnd. split.
  - rewrite get_download_settings_run in Hread. injection Hread as _ <-.
    apply issued_app. reflexivity.
  - exists "object has no attribute 'get'".
    unfold set_download_schedule, set_proxy, clear_proxy, set_download_source,
      bind, lift.
    rewrite Hread.
    destruct current; try (exfalso; eapply Hnd; reflexivity);
      repeat split; reflexivity.
Qed.

(** ** Which requests can occur *)

Lemma sends_ret {A} (P : request -> Prop) (a : A) :
  sends P (ret (remote := remote) a).
Proof. intros s. exists []. split; [symmetry; apply app_nil_r | constructor]. Qed.

Lemma sends_raise {A} (P : request -> Prop) (e : exn) :
  sends P (raise (remote := remote) (A := A) e).
Proof. intros s. exists []. split; [symmetry; apply app_nil_r | constructor]. Qed.

Lemma sends_bind {A B} (P : request -> Prop) (m : M A) (k : A -> M B) :
  sends P m → (∀ a, sends P (k a)) → sends (remote := remote) P (bind m k).
Proof.
  intros Hm Hk s. unfold bind. destruct (Hm s) as (l & Hl & Hall).
  destruct (m s) as [[a | e] s1]; cbn [snd] in *.
  - destruct (Hk a s1) as (l' & Hl' & Hall').
    exists (l ++ l'). split; [| apply Forall_app; auto].
    rewrite Hl', Hl, app_assoc. reflexivity.
  - exists l. auto.
Qed.

(** A value built without any request: only the value really built has to
    be followed. *)
Lemma sends_bind_lift {A B} (P : request -> Prop) (r : result A) (k : A -> M B) :
  (∀ a, r = Ok a → sends P (k a)) →
  sends (remote := remote) P (bind (lift r) k).
Proof.
  intros Hk s. unfold bind, lift. destruct r as [a | e].
  - apply (Hk a eq_refl).
  - exists []. split; [symmetry; apply app_nil_r | constructor].
Qed.

Lemma sends_try_except {A} (P : request -> Prop) (body : M A)
    (handler : exn -> M A) :
  sends P body → (∀ e, sends P (handler e)) →
  sends (remote := remote) P (try_except body handler).
Proof.
  intros Hm Hk s. unfold try_except. destruct (Hm s) as (l & Hl & Hall).
  destruct (body s) as [[a | e] s1]; cbn [snd] in *.
  - exists l. auto.
  - destruct (Hk e s1) as (l' & Hl' & Hall').
    exists (l ++ l'). split; [| apply Forall_app; auto].
    rewrite Hl', Hl, app_assoc. reflexivity.
Qed.

Lemma sends_session_send (P : request -> Prop) (m : http_method) (u : string)
    (a : option (string * string)) (body : option json) :
  (∀ r, method r = m → req_json r = body → P r) →
  sends P (session_send serve m u a body).
Proof.
  intros HP s. unfold session_send, session_request, bind, get_self.
  destruct (serve _ _) as [a' out]. cbn [snd sent].
  eexists. split; [reflexivity |].
  constructor; [| constructor]. apply HP; reflexivity.
Qed.

Lemma sends_raise_for_status (P : request -> Prop) (resp : response) :
  sends P (raise_for_status (remote := remote) resp).
Proof.
  unfold raise_for_status. destruct (_ && _);
    [apply sends_raise | apply sends_ret].
Qed.

Lemma sends_get_download_settings (P : request -> Prop) :
  (∀ r, method r = GET → req_json r = None → P r) →
  sends P (get_download_settings serve).
Proof.
  intros HP. unfold get_download_settings, get.
  apply sends_bind; [| intros resp; unfold response_json;
    destruct (content resp); [apply sends_ret | apply sends_raise]].
  apply sends_bind; [intros s; exists []; split;
    [symmetry; apply app_nil_r | constructor] | intros self].
  apply sends_bind; [apply sends_session_send, HP | intros resp].
  apply sends_bind; [apply sends_raise_for_status | intros _; apply sends_ret].
Qed.

Lemma sends_configure (P : request -> Prop) settings :
  (∀ r, method r = GET → req_json r = None → P r) →
  (∀ r, method r = PUT →
        req_json r = Some (JObj (policy_document settings)) → P r) →
  (wants_depot settings = true → ∀ r, method r = POST → P r) →
  sends P (configure_download_settings serve settings).
Proof.
  intros Hget Hput Hpost. unfold configure_download_settings.
  apply sends_bind.
  { unfold put.
    apply sends_bind; [intros s; exists []; split;
      [symmetry; apply app_nil_r | constructor] | intros self].
    apply sends_bind; [apply sends_session_send, Hput | intros resp].
    apply sends_bind; [apply sends_raise_for_status | intros _; apply sends_ret]. }
  intros _. apply sends_bind;
    [| intros _; apply sends_get_download_settings, Hget].
  fold (wants_depot settings).
  destruct (wants_depot settings); [| apply sends_ret].
  unfold _register_umds_depot.
  apply sends_try_except; [| intros _; apply sends_ret].
  apply sends_bind; [intros s; exists []; split;
    [symmetry; apply app_nil_r | constructor] | intros self].
  apply sends_bind; [| intros resp; apply sends_raise_for_status].
  apply sends_session_send. intros r Hr _. apply Hpost; [reflexivity | exact Hr].
Qed.

Lemma source_init_inv (source_type umds_url : string) (source : DownloadSource.t) :
  DownloadSource.__init__ source_type umds_url = Ok source →
  source = DownloadSource.mk source_type umds_url.
Proof.
  unfold DownloadSource.__init__.
  destruct (DownloadSource.__post_init__ _); cbn; congruence.
Qed.

Lemma schedule_init_inv (enabled : bool) (day : string) (hour minute : Z)
    (schedule : DownloadSchedule.t) :
  DownloadSchedule.__init__ enabled day hour minute = Ok schedule →
  schedule = DownloadSchedule.mk enabled day hour minute.
Proof.
  unfold DownloadSchedule.__init__.
  destruct (DownloadSchedule.__post_init__ _); cbn; congruence.
Qed.

Lemma no_post_filter (l : list request) :
  Forall (fun r => method r ≠ POST) l → requests_of POST l = [].
Proof.
  induction 1 as [| r l Hr _ IH]; [reflexivity |].
  unfold requests_of in *. cbn [List.filter]. unfold is_method at 1.
  destruct (method r); try exact IH. contradiction Hr. reflexivity.
Qed.

(** X12: a depot is registered only through settings whose source is UMDS
    with a non-empty URL: [enable_auto_download], [disable_auto_download],
    [set_download_schedule], [set_proxy] and [clear_proxy] never send a
    POST, and neither does [set_download_source] for the INTERNET source
    (whatever URL is given) or for UMDS with an empty URL. *)
Theorem depot_registered_only_for_umds_url (op : operation) s :
  match op with
  | ConfigureDownloadSettings settings => wants_depot settings = false
  | SetDownloadSource source_type umds_url =>
      source_type ≠ "UMDS" ∨ umds_url = ""
  | _ => True
  end →
  requests_of POST (issued s (snd (run serve op s))) = [].
Proof.
  intros Hop.
  assert (Hsends : sends (fun r => method r ≠ POST) (run serve op)).
  { destruct op; cbn [run].
    - apply sends_get_download_settings. intros r Hr _. congruence.
    - apply sends_configure; intros; congruence.
    - unfold enable_auto_download. apply sends_bind_lift.
      intros settings [= <-]. apply sends_configure; intros; try congruence.
      discriminate.
    - unfold disable_auto_download. apply sends_bind_lift.
      intros schedule [= <-]. apply sends_bind_lift.
      intros settings [= <-]. apply sends_configure; intros; try congruence.
      discriminate.
    - unfold set_download_schedule.
      apply sends_bind; [apply sends_get_download_settings; intros; congruence |].
      intros current. apply sends_bind_lift. intros auto_stage _.
      apply sends_bind_lift. intros schedule _. apply sends_bind_lift.
      intros settings [= <-]. apply sends_configure; intros; try congruence.
      discriminate.
    - unfold set_proxy.
      apply sends_bind; [apply sends_get_download_settings; intros; congruence |].
      intros current. apply sends_bind_lift. intros auto_stage _.
      apply sends_bind_lift.
      intros settings [= <-]. apply sends_configure; intros; try congruence.
      discriminate.
    - unfold clear_proxy.
      apply sends_bind; [apply sends_get_download_settings; intros; congruence |].
      intros current. apply sends_bind_lift. intros auto_stage _.
      apply sends_bind_lift.
      intros settings [= <-]. apply sends_configure; intros; try congruence.
      discriminate.
    - unfold set_download_source.
      apply sends_bind; [apply sends_get_download_settings; intros; congruence |].
      intros current. apply sends_bind_lift. intros auto_stage _.
      apply sends_bind_lift. intros source Hsource.
      apply source_init_inv in Hsource. subst source.
      apply sends_bind_lift.
      intros settings [= <-]. apply sends_configure; intros; try congruence.
      exfalso.
      match goal with H : wants_depot _ = true |- _ =>
        apply wants_depot_iff in H; cbn in H; destruct H end.
      destruct Hop; contradiction. }
  destruct (Hsends s) as (l & Hl & Hall).
  rewrite (issued_app _ _ _ Hl). apply no_post_filter, Hall.
Qed.

Lemma sends_login (P : request -> Prop) :
  (∀ r, method r = POST → req_json r = None → P r) →
  sends P (login serve).
Proof.
  intros HP s. rewrite login_run. eexists. split; [| constructor; [| constructor]].
  - destruct (snd (serve _ _)) as [resp | e];
      [destruct (error_status resp); [| destruct (content resp)] |];
      reflexivity.
  - apply HP; reflexivity.
Qed.

Lemma sends_logout (P : request -> Prop) :
  (∀ r, method r = DELETE → P r) → sends P (logout serve).
Proof.
  intros HP s. rewrite logout_run. destruct (truthy _).
  - eexists. split; [| constructor; [| constructor]].
    + destruct (snd (serve _ _)); reflexivity.
    + apply HP. reflexivity.
  - exists []. split; [symmetry; apply app_nil_r | constructor].
Qed.

Lemma sends_with_client {A} (P : request -> Prop) (body : M A) :
  sends P (login serve) → sends P body → sends P (logout serve) →
  sends P (with_client serve body).
Proof.
  intros Hin Hbody Hout s. unfold with_client, __enter__, __exit__.
  destruct (Hin s) as (l1 & Hl1 & Hall1).
  destruct (login serve s) as [[[] | e] s1]; cbn [snd] in *;
    [| exists l1; auto].
  destruct (Hbody s1) as (l2 & Hl2 & Hall2).
  destruct (body s1) as [r s2]; cbn [snd] in *.
  destruct (Hout s2) as (l3 & Hl3 & Hall3).
  exists (l1 ++ l2 ++ l3). split.
  - destruct r; destruct (logout serve s2) as [[[] | e'] s3]; cbn [snd] in *;
      rewrite Hl3, Hl2, Hl1, <- !app_assoc; reflexivity.
  - repeat (apply Forall_app; split); assumption.
Qed.

Lemma sends_handler (P : request -> Prop) (environ : gmap string string)
    (args : Namespace.t) (body : M json) (report : json -> list output) :
  sends P (with_client serve body) →
  sends P (handler serve environ args body report).
Proof.
  intros Hbody s. unfold handler.
  destruct (_build_client args environ) as [msg | c].
  - exists []. split; [symmetry; apply app_nil_r | constructor].
  - destruct (Hbody (Build_state c (appliance s) (sent s))) as (l & Hl & Hall).
    exists l. split; [| exact Hall].
    destruct (with_client _ _ _) as [[result | e] s']; exact Hl.
Qed.

(** X13: the [set-proxy] command given no (or an empty) [--proxy-user]
    never puts proxy credentials on the wire: in every PUT it sends, the
    proxy entry is exactly {enabled, server, port}, even when a
    [--proxy-password] was given. *)
Theorem proxy_password_needs_username
    (environ : gmap string string) (args : Namespace.t) s :
  Namespace.proxy_user args = None ∨ Namespace.proxy_user args = Some "" →
  Forall (fun r =>
            match method r with
            | PUT =>
                req_json r ≫= json_get "proxy"
                = Some (JObj {[ "enabled" := JBool true;
                                "server" := JStr (Namespace.server args);
                                "port" := JInt (Namespace.port args) ]})
            | _ => True
            end)
    (issued s (snd (cmd_set_proxy serve environ args s))).
Proof.
  intros Huser.
  assert (Hu : py_or (Namespace.proxy_user args) "" = "").
  { destruct Huser as [-> | ->]; reflexivity. }
  set (P := fun r : request => match method r with PUT => _ | _ => True end).
  assert (Hsends : sends P (cmd_set_proxy serve environ args)).
  { unfold cmd_set_proxy. rewrite Hu.
    apply sends_handler, sends_with_client.
    - apply sends_login. intros r Hr _. unfold P. rewrite Hr. exact I.
    - unfold set_proxy.
      apply sends_bind.
      { apply sends_get_download_settings. intros r Hr _.
        unfold P. rewrite Hr. exact I. }
      intros current. apply sends_bind_lift. intros auto_stage _.
      apply sends_bind_lift. intros settings [= <-].
      apply sends_configure.
      + intros r Hr _. unfold P. rewrite Hr. exact I.
      + intros r Hr Hbody. unfold P. rewrite Hr, Hbody. reflexivity.
      + intros _ r Hr. unfold P. rewrite Hr. exact I.
    - apply sends_logout. intros r Hr. unfold P. rewrite Hr. exact I. }
  destruct (Hsends s) as (l & Hl & Hall).
  rewrite (issued_app _ _ _ Hl). exact Hall.
Qed.

(** ** The command handlers *)

(** X14: when a credential is missing (its flag absent or empty and its
    environment variable unset or empty), every handler exits with the
    credentials message before anything is sent: nothing is printed and the
    state, with its list of requests, is untouched. *)
Theorem missing_credentials_send_nothing
    (environ : gmap string string) (args : Namespace.t) s :
  ((Namespace.host args = None ∨ Namespace.host args = Some "")
   ∧ (environ !! "VCENTER_HOST" = None ∨ environ !! "VCENTER_HOST" = Some ""))
  ∨ ((Namespace.username args = None ∨ Namespace.username args = Some "")
     ∧ (environ !! "VCENTER_USERNAME" = None
        ∨ environ !! "VCENTER_USERNAME" = Some ""))
  ∨ ((Namespace.password args = None ∨ Namespace.password args = Some "")
     ∧ (environ !! "VCENTER_PASSWORD" = None
        ∨ environ !! "VCENTER_PASSWORD" = Some "")) →
  cmd_show serve environ args s = (([], Exited credentials_required), s)
  ∧ cmd_enable_auto serve environ args s
    = (([], Exited credentials_required), s)
  ∧ cmd_disable_auto serve environ args s
    = (([], Exited credentials_required), s)
  ∧ cmd_set_schedule serve environ args s
    = (([], Exited credentials_required), s)
  ∧ cmd_set_proxy serve environ args s
    = (([], Exited credentials_required), s)
  ∧ cmd_clear_proxy serve environ args s
    = (([], Exited credentials_required), s)
  ∧ cmd_set_source serve environ args s
    = (([], Exited credentials_required), s).
Proof.
  intros Hmissing.
  assert (Hexit : _build_client args environ = inl credentials_required).
  { unfold _build_client, environ_get.
    destruct Hmissing as [[Hflag Henv] | [[Hflag Henv] | [Hflag Henv]]];
      destruct Hflag as [-> | ->]; destruct Henv as [-> | ->]; cbn;
      rewrite ?orb_true_r; reflexivity. }
  unfold cmd_show, cmd_enable_auto, cmd_disable_auto, cmd_set_schedule,
    cmd_set_proxy, cmd_clear_proxy, cmd_set_source, handler.
  rewrite Hexit. repeat split.
Qed.

(** X15: [cmd_show] prints inside the block: once the client is built, the
    login has returned and the policy has been read, the policy is printed,
    and a logout that raises afterwards makes the handler fail although the
    policy is already on standard output. *)
Theorem cmd_show_prints_before_logout
    (environ : gmap string string) (args : Namespace.t) s
    (c : VCenterClient) (s1 s2 : state remote) (v : json) :
  _build_client args environ = inr c →
  login serve (Build_state c (appliance s) (sent s)) = (Ok tt, s1) →
  get_download_settings serve s1 = (Ok v, s2) →
  fst (fst (cmd_show serve environ args s)) = [PrintJson v]
  ∧ (is_ok (fst (logout serve s2)) = true →
     snd (fst (cmd_show serve environ args s)) = Returned)
  ∧ (∀ e, fst (logout serve s2) = Raise e →
          snd (fst (cmd_show serve environ args s)) = Failed e).
Proof.
  intros Hbuilt Hin Hread.
  unfold cmd_show, __enter__, __exit__. rewrite Hbuilt, Hin, Hread.
  destruct (logout serve s2) as [[[] | e0] s3]; cbn [fst snd is_ok].
  - repeat split; intros; discriminate.
  - split; [reflexivity |]. split; [discriminate |].
    intros e [= <-]. reflexivity.
Qed.


(** X19: inside [with client:], when the token obtained by [login] is falsy
    (an empty string, null, 0, ...), [__exit__] sends no DELETE: the
    requests are the login POST and those of the operation, and the block
    ends as the operation did. *)
Theorem falsy_token_never_logged_out (op : operation) s (s1 : state remote) :
  login serve s = (Ok tt, s1) →
  truthy (_session_id (client s1)) = false →
  issued s (snd (with_client serve (run serve op) s))
  = login_request (client s) :: issued s1 (snd (run serve op s1))
  ∧ fst (with_client serve (run serve op) s) = fst (run serve op s1).
Proof.
  intros Hin Hidle.
  pose proof (login_sent _ _ _ Hin) as Hs1.
  destruct (polite_run op s1) as (Hc & l & Hl & _).
  rewrite (issued_app _ _ _ Hl).
  unfold with_client, __enter__, __exit__. rewrite Hin.
  destruct (run serve op s1) as [[a | e] s2]; cbn [fst snd] in *;
    rewrite logout_run, Hc, Hidle; cbn [fst snd];
    (split; [apply issued_app; rewrite Hl, Hs1, <- app_assoc |]);
    reflexivity.
Qed.

Lemma patch_run (path : string) (body : option json) s :
  let r := {| method := PATCH; url := base_url (client s) +:+ path;
              headers := session_headers (client s);
              auth := None; req_json := body |} in
  patch serve path body s =
  (match snd (serve (appliance s) r) with
   | Ok resp => if error_status resp then Raise (HTTPError (status_code resp))
                else Ok resp
   | Raise e => Raise e
   end, exchanged s r (fst (serve (appliance s) r))).
Proof.
  unfold patch, session_send, session_request, bind, get_self, raise_for_status,
    exchanged, error_status, raise, ret; simpl.
  destruct (serve _ _) as [a' [resp | e]]; simpl; [| reflexivity].
  destruct (_ && _); reflexivity.
Qed.

Lemma checked_response_ok (out : result response) (resp : response) :
  match out with
  | Ok r => if error_status r then Raise (HTTPError (status_code r)) else Ok r
  | Raise e => Raise e
  end = Ok resp ↔ out = Ok resp ∧ error_status resp = false.
Proof.
  destruct out as [r | e].
  - destruct (error_status r) eqn:Hr; split.
    + discriminate.
    + intros [[= <-] ?]. congruence.
    + intros [= <-]. auto.
    + intros [? _]. assumption.
  - split; [discriminate | intros [[=] _]].
Qed.

(** X20: [get], [put] and [patch] each send exactly one request, with their
    verb, the URL base_url + path, the session headers and the given body;
    each returns the response exactly when the exchange gave one whose
    status is no 4xx or 5xx, and raises otherwise. *)
Theorem client_verbs (path : string) (body : option json) s :
  (issued s (snd (get serve path s)) = [verb_request (client s) GET path None]
   ∧ ∀ resp, fst (get serve path s) = Ok resp ↔
       snd (serve (appliance s) (verb_request (client s) GET path None))
       = Ok resp ∧ error_status resp = false)
  ∧ (issued s (snd (put serve path body s))
     = [verb_request (client s) PUT path body]
     ∧ ∀ resp, fst (put serve path body s) = Ok resp ↔
         snd (serve (appliance s) (verb_request (client s) PUT path body))
         = Ok resp ∧ error_status resp = false)
  ∧ (issued s (snd (patch serve path body s))
     = [verb_request (client s) PATCH path body]
     ∧ ∀ resp, fst (patch serve path body s) = Ok resp ↔
         snd (serve (appliance s) (verb_request (client s) PATCH path body))
         = Ok resp ∧ error_status resp = false).
Proof.
  rewrite get_run, put_run, patch_run. cbv zeta. cbn [fst snd].
  fold (verb_request (client s) GET path None).
  fold (verb_request (client s) PUT path body).
  fold (verb_request (client s) PATCH path body).
  split; [| split];
    (split; [apply issued_app; reflexivity
            | intros resp; apply checked_response_ok]).
Qed.

(** X21: the [set-source] command given no (or an empty) [--umds-url]
    registers no depot, even with [--type UMDS]: apart from the login, which
    has no body, it sends no POST. *)
Theorem set_source_without_url_registers_nothing
    (environ : gmap string string) (args : Namespace.t) s :
  Namespace.umds_url args = None ∨ Namespace.umds_url args = Some "" →
  Forall (fun r => match method r with
                   | POST => req_json r = None
                   | _ => True
                   end)
    (issued s (snd (cmd_set_source serve environ args s))).
Proof.
  intros Hurl.
  assert (Hu : py_or (Namespace.umds_url args) "" = "").
  { destruct Hurl as [-> | ->]; reflexivity. }
  set (P := fun r : request => match method r with POST => _ | _ => True end).
  assert (Hsends : sends P (cmd_set_source serve environ args)).
  { unfold cmd_set_source. rewrite Hu.
    apply sends_handler, sends_with_client.
    - apply sends_login. intros r Hr Hbody. unfold P. rewrite Hr. exact Hbody.
    - unfold set_download_source.
      apply sends_bind.
      { apply sends_get_download_settings. intros r Hr _.
        unfold P. rewrite Hr. exact I. }
      intros current. apply sends_bind_lift. intros auto_stage _.
      apply sends_bind_lift. intros source Hsource.
      apply source_init_inv in Hsource. subst source.
      apply sends_bind_lift. intros settings [= <-].
      apply sends_configure.
      + intros r Hr _. unfold P. rewrite Hr. exact I.
      + intros r Hr _. unfold P. rewrite Hr. exact I.
      + intros Hwants. apply wants_depot_iff in Hwants.
        cbn in Hwants. destruct Hwants as [_ Hne]. contradiction Hne.
        reflexivity.
    - apply sends_logout. intros r Hr. unfold P. rewrite Hr. exact I. }
  destruct (Hsends s) as (l & Hl & Hall).
  rewrite (issued_app _ _ _ Hl). exact Hall.
Qed.

End MoreProperties.

(** ** Credentials and serialization *)

Lemma py_or_empty (flag : option string) (value : option string) :
  py_or flag (default "" value) = "" ↔
  (flag = None ∨ flag = Some "") ∧ (value = None ∨ value = Some "").
Proof.
  destruct flag as [[| a f] |], value as [[| b v] |]; cbn;
    split; try discriminate; try tauto; auto;
    intros [[H | H] [H' | H']]; discriminate.
Qed.

(** X17: how [_build_client] resolves the credentials. It exits exactly when
    some credential has neither a non-empty flag nor a non-empty environment
    variable; non-empty flags are used whatever the environment holds; a
    flag that is absent or empty falls back to its environment variable;
    and the client built has the base URL https://host and no session. *)
Theorem build_client_credentials
    (environ : gmap string string) (args : Namespace.t) :
  (_build_client args environ = inl credentials_required ↔
     ((Namespace.host args = None ∨ Namespace.host args = Some "")
      ∧ (environ !! "VCENTER_HOST" = None
         ∨ environ !! "VCENTER_HOST" = Some ""))
     ∨ ((Namespace.username args = None ∨ Namespace.username args = Some "")
        ∧ (environ !! "VCENTER_USERNAME" = None
           ∨ environ !! "VCENTER_USERNAME" = Some ""))
     ∨ ((Namespace.password args = None ∨ Namespace.password args = Some "")
        ∧ (environ !! "VCENTER_PASSWORD" = None
           ∨ environ !! "VCENTER_PASSWORD" = Some "")))
  ∧ (∀ msg, _build_client args environ = inl msg → msg = credentials_required)
  ∧ (∀ a h b u c p,
       Namespace.host args = Some (String a h) →
       Namespace.username args = Some (String b u) →
       Namespace.password args = Some (String c p) →
       _build_client args environ
       = inr (VCenterClient__init__ (String a h) (String b u) (String c p)
                (Namespace.verify_ssl args)))
  ∧ (∀ a h b u c p,
       (Namespace.host args = None ∨ Namespace.host args = Some "") →
       (Namespace.username args = None ∨ Namespace.username args = Some "") →
       (Namespace.password args = None ∨ Namespace.password args = Some "") →
       environ !! "VCENTER_HOST" = Some (String a h) →
       environ !! "VCENTER_USERNAME" = Some (String b u) →
       environ !! "VCENTER_PASSWORD" = Some (String c p) →
       _build_client args environ
       = inr (VCenterClient__init__ (String a h) (String b u) (String c p)
                (Namespace.verify_ssl args)))
  ∧ (∀ client, _build_client args environ = inr client →
       (∃ a h, base_url client = "https://" +:+ String a h)
       ∧ _session_id client = JNull
       ∧ session_headers client = ∅
       ∧ verify_ssl client = Namespace.verify_ssl args).
Proof.
  rewrite <- !py_or_empty.
  unfold _build_client, environ_get.
  set (host := py_or (Namespace.host args) _).
  set (user := py_or (Namespace.username args) _).
  set (pass := py_or (Namespace.password args) _).
  split; [| split; [| split; [| split]]].
  - destruct host, user, pass; cbn; split; intros H;
      try reflexivity; try discriminate; auto;
      destruct H as [H | [H | H]]; discriminate.
  - destruct (_ || _); intros msg [=]. congruence.
  - intros a h b u c p Hh Hu Hp. subst host user pass.
    rewrite Hh, Hu, Hp. reflexivity.
  - intros a h b u c p Hh Hu Hp Eh Eu Ep. subst host user pass.
    rewrite Eh, Eu, Ep.
    destruct Hh as [-> | ->], Hu as [-> | ->], Hp as [-> | ->]; reflexivity.
  - intros client. destruct host as [| a h]; [discriminate |].
    destruct user, pass; cbn; intros [=]; subst client.
    repeat split. exists a, h. reflexivity.
Qed.

(** X18: [DownloadSchedule.to_dict] loses nothing: two schedules with the
    same dict are the same schedule. *)
Theorem schedule_to_dict_injective (x y : DownloadSchedule.t) :
  DownloadSchedule.to_dict x = DownloadSchedule.to_dict y → x = y.
Proof.
  intros H.
  assert (He : DownloadSchedule.to_dict x !! "enabled"
               = DownloadSchedule.to_dict y !! "enabled") by (rewrite H; done).
  assert (Hd : DownloadSchedule.to_dict x !! "day"
               = DownloadSchedule.to_dict y !! "day") by (rewrite H; done).
  assert (Hh : DownloadSchedule.to_dict x !! "hour"
               = DownloadSchedule.to_dict y !! "hour") by (rewrite H; done).
  assert (Hm : DownloadSchedule.to_dict x !! "minute"
               = DownloadSchedule.to_dict y !! "minute") by (rewrite H; done).
  destruct x, y. vm_compute in He, Hd, Hh, Hm. congruence.
Qed.

(** ** The further properties on the laboratory appliances *)

Lemma login_outcome_witness :
  client (snd (login lab_serve (lab_state monday_policy)))
  = logged_in lab_client (JStr "token")
  ∧ client (snd (login refusing_serve (Build_state lab_client tt [])))
    = lab_client.
Proof.
  split.
  - destruct (login_outcome lab_serve (lab_state monday_policy))
      as (_ & _ & _ & Hclient & _).
    apply (Hclient {| status_code := 201; content := Some (JStr "token") |});
      reflexivity.
  - destruct (login_outcome refusing_serve (Build_state lab_client tt []))
      as (_ & _ & _ & _ & Hsame).
    apply Hsame. discriminate.
Defined.

Lemma logout_outcome_witness :
  (fst (logout lab_serve lab_session) = Ok tt
   ∧ _session_id (client (snd (logout lab_serve lab_session))) = JNull)
  ∧ (fst (logout flaky_serve lab_session)
     = Raise (RequestException "connection reset")
     ∧ client (snd (logout flaky_serve lab_session)) = client lab_session).
Proof.
  split.
  - destruct (logout_outcome lab_serve lab_session eq_refl)
      as (_ & Hanswered & _).
    apply (Hanswered {| status_code := 204; content := None |}). reflexivity.
  - destruct (logout_outcome flaky_serve lab_session eq_refl)
      as (_ & _ & Hbroken & _).
    apply Hbroken. reflexivity.
Defined.

Lemma logout_keeps_session_header_witness :
  session_headers (client (snd (logout lab_serve lab_session)))
    !! "vmware-api-session-id" = Some (JStr "token")
  ∧ truthy (_session_id (client (snd (logout lab_serve lab_session)))) = false.
Proof.
  apply (logout_keeps_session_header lab_serve (lab_state monday_policy)
           lab_session (snd (logout lab_serve lab_session)));
    reflexivity.
Defined.

Lemma operations_carry_session_token_witness :
  Forall (fun r => headers r !! "vmware-api-session-id" = Some (JStr "token"))
    (issued lab_session
       (snd (run lab_serve (SetProxy "proxy.corp.com" 8080 "" "") lab_session))).
Proof.
  apply (operations_carry_session_token lab_serve
           (SetProxy "proxy.corp.com" 8080 "" "")
           (lab_state monday_policy) lab_session).
  reflexivity.
Defined.

Lemma with_client_always_logs_out_witness :
  issued (lab_state monday_policy)
    (snd (with_client lab_serve
            (run lab_serve (SetDownloadSchedule "MONDAY" 25 0))
            (lab_state monday_policy)))
  = [login_request lab_client;
     policy_get_request (client lab_session);
     session_delete_request (client lab_session)].
Proof.
  apply (with_client_always_logs_out lab_serve
           (SetDownloadSchedule "MONDAY" 25 0)
           (lab_state monday_policy) lab_session);
    reflexivity.
Defined.

Lemma with_client_outcome_witness :
  (fst (with_client refusing_serve (run refusing_serve ClearProxy)
          (Build_state lab_client tt []))
   = Raise (HTTPError 401)
   ∧ issued (Build_state lab_client tt [])
       (snd (with_client refusing_serve (run refusing_serve ClearProxy)
               (Build_state lab_client tt [])))
     = [login_request lab_client])
  ∧ fst (with_client lab_serve (run lab_serve (SetDownloadSchedule "MONDAY" 25 0))
           (lab_state monday_policy))
    = Raise (ValueError "hour must be 0-23, got 25")
  ∧ fst (with_client flaky_serve (run flaky_serve ClearProxy)
           (lab_state monday_policy))
    = Raise (RequestException "connection reset").
Proof.
  split; [| split].
  - apply (with_client_outcome refusing_serve ClearProxy
             (Build_state lab_client tt [])).
    reflexivity.
  - destruct (with_client_outcome lab_serve (SetDownloadSchedule "MONDAY" 25 0)
                (lab_state monday_policy)) as (_ & Hblock).
    destruct (Hblock lab_session eq_refl eq_refl) as (Hanswered & _).
    destruct (Hanswered {| status_code := 204; content := None |} eq_refl)
      as (Hsame & _).
    rewrite Hsame. reflexivity.
  - destruct (with_client_outcome flaky_serve ClearProxy
                (lab_state monday_policy)) as (_ & Hblock).
    destruct (Hblock lab_session eq_refl eq_refl) as (_ & Hbroken).
    apply Hbroken. reflexivity.
Defined.

Lemma configure_put_failure_stops_witness :
  (fst (configure_download_settings refusing_serve umds_settings
          (Build_state lab_client tt []))
   = Raise (HTTPError 401)
   ∧ issued (Build_state lab_client tt [])
       (snd (configure_download_settings refusing_serve umds_settings
               (Build_state lab_client tt [])))
     = [policy_put_request lab_client (policy_document umds_settings)])
  ∧ (fst (configure_download_settings down_serve umds_settings
            (Build_state lab_client tt []))
     = Raise (RequestException "connection refused")
     ∧ issued (Build_state lab_client tt [])
         (snd (configure_download_settings down_serve umds_settings
                 (Build_state lab_client tt [])))
       = [policy_put_request lab_client (policy_document umds_settings)]).
Proof.
  split.
  - destruct (configure_put_failure_stops refusing_serve umds_settings
                (Build_state lab_client tt [])) as (Hstatus & _).
    apply (Hstatus {| status_code := 401; content := None |}); reflexivity.
  - destruct (configure_put_failure_stops down_serve umds_settings
                (Build_state lab_client tt [])) as (_ & Hraise).
    apply Hraise. reflexivity.
Defined.

Lemma invalid_target_never_writes_witness :
  set_download_schedule lab_serve "MONDAY" 25 0 (lab_state monday_policy)
  = (Raise (ValueError "hour must be 0-23, got 25"),
     exchanged (lab_state monday_policy) (policy_get_request lab_client)
       monday_policy)
  ∧ issued (lab_state monday_policy)
      (snd (set_download_source lab_serve "FTP" "ftp://depot"
              (lab_state monday_policy)))
    = [policy_get_request lab_client].
Proof.
  destruct (invalid_target_never_writes lab_serve (lab_state monday_policy))
    as (Hschedule & Hsource).
  split.
  - destruct (Hschedule "MONDAY" 25%Z 0%Z _ eq_refl) as (_ & _ & Hraise).
    apply (Hraise monday_dict). reflexivity.
  - destruct (Hsource "FTP" "ftp://depot" _ eq_refl) as (Hsent & _).
    exact Hsent.
Defined.

Lemma non_dict_policy_raises_witness :
  ∃ msg : string,
    clear_proxy lab_serve (lab_state (JList []))
    = (Raise (AttributeError msg),
       exchanged (lab_state (JList [])) (policy_get_request lab_client)
         (JList [])).
Proof.
  destruct (non_dict_policy_raises lab_serve (lab_state (JList [])) (JList [])
              (exchanged (lab_state (JList [])) (policy_get_request lab_client)
                 (JList [])) eq_refl)
    as (_ & msg & _ & _ & Hclear & _).
  - intros m. discriminate.
  - exists msg. exact Hclear.
Defined.

Lemma depot_registered_only_for_umds_url_witness :
  requests_of POST
    (issued (lab_state monday_policy)
       (snd (run lab_serve (SetDownloadSource "UMDS" "")
               (lab_state monday_policy)))) = [].
Proof.
  apply (depot_registered_only_for_umds_url lab_serve
           (SetDownloadSource "UMDS" "") (lab_state monday_policy)).
  right. reflexivity.
Defined.

Lemma proxy_password_needs_username_witness :
  Forall (fun r =>
            match method r with
            | PUT =>
                req_json r ≫= json_get "proxy"
                = Some (JObj {[ "enabled" := JBool true;
                                "server" := JStr "proxy.corp.com";
                                "port" := JInt 8080 ]})
            | _ => True
            end)
    (issued (lab_state monday_policy)
       (snd (cmd_set_proxy lab_serve ∅ lab_args (lab_state monday_policy)))).
Proof.
  apply (proxy_password_needs_username lab_serve ∅ lab_args
           (lab_state monday_policy)).
  left. reflexivity.
Defined.

Lemma missing_credentials_send_nothing_witness :
  cmd_set_proxy lab_serve ∅ bare_args (lab_state monday_policy)
  = (([], Exited credentials_required), lab_state monday_policy).
Proof.
  apply (missing_credentials_send_nothing lab_serve ∅ bare_args
           (lab_state monday_policy)).
  left. split; left; reflexivity.
Defined.

Lemma cmd_show_prints_before_logout_witness :
  fst (cmd_show flaky_serve ∅ lab_args (lab_state monday_policy))
  = ([PrintJson monday_policy],
     Failed (RequestException "connection reset")).
Proof.
  destruct (cmd_show_prints_before_logout flaky_serve ∅ lab_args
              (lab_state monday_policy) lab_client lab_session
              (snd (get_download_settings flaky_serve lab_session))
              monday_policy eq_refl eq_refl eq_refl)
    as (Hout & _ & Hfail).
  specialize (Hfail (RequestException "connection reset") eq_refl).
  destruct (fst (cmd_show flaky_serve ∅ lab_args (lab_state monday_policy)))
    as [out ending].
  cbn [fst snd] in Hout, Hfail. rewrite Hout, Hfail. reflexivity.
Defined.

Lemma build_client_credentials_witness :
  _build_client lab_args ∅ = inr lab_client
  ∧ _build_client bare_args
      {[ "VCENTER_HOST" := "vc.lab"; "VCENTER_USERNAME" := "admin";
         "VCENTER_PASSWORD" := "secret" ]}
    = inr lab_client
  ∧ _build_client bare_args {[ "VCENTER_HOST" := "vc.lab" ]}
    = inl credentials_required.
Proof.
  split; [| split].
  - destruct (build_client_credentials ∅ lab_args) as (_ & _ & Hflags & _).
    apply (Hflags _ _ _ _ _ _ eq_refl eq_refl eq_refl).
  - destruct (build_client_credentials
                {[ "VCENTER_HOST" := "vc.lab"; "VCENTER_USERNAME" := "admin";
                   "VCENTER_PASSWORD" := "secret" ]} bare_args)
      as (_ & _ & _ & Henv & _).
    apply (Henv _ _ _ _ _ _ (or_introl eq_refl) (or_introl eq_refl)
             (or_introl eq_refl) eq_refl eq_refl eq_refl).
  - apply (build_client_credentials {[ "VCENTER_HOST" := "vc.lab" ]} bare_args).
    right. left. split; left; reflexivity.
Defined.

Lemma schedule_to_dict_injective_witness :
  DownloadSchedule.mk true "MONDAY" 3 30
  = DownloadSchedule.mk true "MONDAY" (1 + 2) (3 * 10).
Proof.
  apply (schedule_to_dict_injective
           (DownloadSchedule.mk true "MONDAY" 3 30)
           (DownloadSchedule.mk true "MONDAY" (1 + 2) (3 * 10))).
  reflexivity.
Defined.

Lemma falsy_token_never_logged_out_witness :
  issued (lab_state monday_policy)
    (snd (with_client tokenless_serve (run tokenless_serve GetDownloadSettings)
            (lab_state monday_policy)))
  = [login_request lab_client;
     policy_get_request (logged_in lab_client (JStr ""))]
  ∧ fst (with_client tokenless_serve (run tokenless_serve GetDownloadSettings)
           (lab_state monday_policy))
    = Ok monday_policy.
Proof.
  apply (falsy_token_never_logged_out tokenless_serve GetDownloadSettings
           (lab_state monday_policy)
           (snd (login tokenless_serve (lab_state monday_policy))));
    reflexivity.
Defined.

Lemma set_source_without_url_registers_nothing_witness :
  Forall (fun r => match method r with
                   | POST => req_json r = None
                   | _ => True
                   end)
    (issued (lab_state monday_policy)
       (snd (cmd_set_source lab_serve ∅ lab_args (lab_state monday_policy)))).
Proof.
  apply (set_source_without_url_registers_nothing lab_serve ∅ lab_args
           (lab_state monday_policy)).
  left. reflexivity.
Defined.
